(** * PayPal payment provider for Medusa: a shallow embedding of [service.ts]

    The adapter translates each call of the host's payment-provider contract
    into at most two calls against the processor's SDK and maps the answer
    back.  The repository carries several revisions of the same class:

    - [src/service.ts], the current source (module [Service] below);
    - [unnamed/part_001], the revision before it (module [Rev1]);
    - [unnamed/part_000], the oldest TypeScript revision (module [Rev0]);
    - [dist/service.js], compiled output of still older code, which treats
      amounts as [Rev0] does and is not embedded.

    JavaScript values are embedded as the inductive [value]; numbers are
    exact rationals extended with [NaN] and the two infinities, so the
    rounding of IEEE doubles is not part of the model (statements about
    amounts say where that matters).  Calls to the processor are recorded in
    a trace, and the processor itself is a parameter answering each call
    with a result or a thrown error.  [console.log] lines are left out. *)

From Stdlib Require Import ZArith QArith Qround Qabs Lqa List String Ascii Lia Bool.
From Stdlib Require Import Decimal DecimalString DecimalN.
Import ListNotations.

Set Warnings "-register-all".
Local Open Scope string_scope.

(** ** JavaScript values and the operators the adapter uses *)

Module Js.

Inductive number : Type :=
| NaN
| Infinity (negative : bool)
| Fin (q : Q).

Inductive value : Type :=
| Undefined
| Null
| Bool (b : bool)
| Num (n : number)
| Str (s : string)
| Arr (items : list value)
| Obj (fields : list (string * value)).

Definition number_truthy (n : number) : bool :=
  match n with
  | NaN => false
  | Infinity _ => true
  | Fin q => negb (Qeq_bool q 0)
  end.

(** [if (v)], [!v], and the left operand of [||] and [&&]. *)
Definition truthy (v : value) : bool :=
  match v with
  | Undefined | Null => false
  | Bool b => b
  | Num n => number_truthy n
  | Str s => negb (String.eqb s "")
  | Arr _ | Obj _ => true
  end.

(** [a || b] *)
Definition or_else (a b : value) : value := if truthy a then a else b.

Fixpoint lookup (k : string) (fs : list (string * value)) : value :=
  match fs with
  | [] => Undefined
  | (k', v) :: rest => if String.eqb k k' then v else lookup k rest
  end.

(** [v?.k] for the property names the adapter reads; none of them is a
    property of a primitive or of an array. *)
Definition prop (k : string) (v : value) : value :=
  match v with
  | Obj fs => lookup k fs
  | _ => Undefined
  end.

(** [v?.[0]] *)
Definition index0 (v : value) : value :=
  match v with
  | Arr (x :: _) => x
  | Obj fs => lookup "0" fs
  | Str (String c _) => Str (String c "")
  | _ => Undefined
  end.

Definition nullish (v : value) : bool :=
  match v with
  | Undefined | Null => true
  | _ => false
  end.

(** [v === "s"] *)
Definition is_str (s : string) (v : value) : bool :=
  match v with
  | Str s' => String.eqb s' s
  | _ => false
  end.

(** Object literals and spread. [set_field] is an assignment [o.k = v]: an
    existing key keeps its place, a new key goes last. *)
Fixpoint set_field (k : string) (v : value) (fs : list (string * value))
  : list (string * value) :=
  match fs with
  | [] => [(k, v)]
  | (k', v') :: rest =>
      if String.eqb k k' then (k, v) :: rest else (k', v') :: set_field k v rest
  end.

Definition index_key (i : nat) : string :=
  NilEmpty.string_of_uint (Nat.to_uint i).

Fixpoint indexed (i : nat) (l : list value) : list (string * value) :=
  match l with
  | [] => []
  | x :: rest => (index_key i, x) :: indexed (S i) rest
  end.

Fixpoint chars (s : string) : list value :=
  match s with
  | EmptyString => []
  | String c rest => Str (String c "") :: chars rest
  end.

(** The own enumerable properties [{...v}] copies. *)
Definition spread (v : value) : list (string * value) :=
  match v with
  | Obj fs => fs
  | Arr l => indexed 0 l
  | Str s => indexed 0 (chars s)
  | _ => []
  end.

(** *** Strings *)

Definition upper_char (c : ascii) : ascii :=
  let n := nat_of_ascii c in
  if (97 <=? n)%nat && (n <=? 122)%nat then ascii_of_nat (n - 32) else c.

(** [s.toUpperCase()], on ASCII letters. *)
Fixpoint toUpperCase (s : string) : string :=
  match s with
  | EmptyString => EmptyString
  | String c rest => String (upper_char c) (toUpperCase rest)
  end.

Definition is_digit (c : ascii) : bool :=
  let n := nat_of_ascii c in (48 <=? n)%nat && (n <=? 57)%nat.

(** The longest prefix of decimal digits, and what follows it. *)
Fixpoint span_digits (s : string) : string * string :=
  match s with
  | EmptyString => (EmptyString, EmptyString)
  | String c rest =>
      if is_digit c
      then let (ds, tl) := span_digits rest in (String c ds, tl)
      else (EmptyString, s)
  end.

Definition digits_value (ds : string) : N :=
  match NilEmpty.uint_of_string ds with
  | Some d => N.of_uint d
  | None => 0%N
  end.

Definition dec (n : Z) : string := NilEmpty.string_of_uint (N.to_uint (Z.to_N n)).

Definition dec2 (r : Z) : string :=
  if (r <? 10)%Z then "0" ++ dec r else dec r.

(** *** [Number.prototype.toFixed(2)]

    After the sign is split off, the integer [n] with [n / 100] nearest to
    the number is taken, the larger one on a tie, and printed with the last
    two digits after the point.  From 10^21 on JavaScript prints exponent
    notation instead, which the model has no counterpart for: statements
    about [toFixed2] stay below that bound. *)
Definition hundredths (q : Q) : Z := Qfloor (Qabs q * 100 + (1 # 2)).

Definition toFixed2 (x : number) : string :=
  match x with
  | NaN => "NaN"
  | Infinity neg => if neg then "-Infinity" else "Infinity"
  | Fin q =>
      let n := hundredths q in
      (if Qle_bool 0 q then "" else "-")
        ++ dec (n / 100) ++ "." ++ dec2 (n mod 100)
  end.

(** *** [parseFloat]

    Leading white space (the ASCII kinds), an optional sign, then
    [Infinity] or a decimal literal: digits, an optional fraction, an
    optional exponent.  Whatever follows the literal is ignored; no literal
    at all gives [NaN]. *)
Definition is_space (c : ascii) : bool :=
  let n := nat_of_ascii c in
  (n =? 32)%nat || ((9 <=? n)%nat && (n <=? 13)%nat).

Fixpoint skip_spaces (s : string) : string :=
  match s with
  | String c rest => if is_space c then skip_spaces rest else s
  | EmptyString => EmptyString
  end.

Definition split_sign (s : string) : bool * string :=
  match s with
  | String "-" rest => (true, rest)
  | String "+" rest => (false, rest)
  | _ => (false, s)
  end.

Definition exponent (s : string) : Z :=
  match s with
  | String c rest =>
      if (Ascii.eqb c "e" || Ascii.eqb c "E")%bool then
        let (neg, rest') := split_sign rest in
        let (ds, _) := span_digits rest' in
        if String.eqb ds "" then 0%Z
        else if neg then (- Z.of_N (digits_value ds))%Z
             else Z.of_N (digits_value ds)
      else 0%Z
  | EmptyString => 0%Z
  end.

Definition parse_decimal (neg : bool) (s : string) : number :=
  let (ip, r1) := span_digits s in
  let (fp, r2) :=
    match r1 with
    | String "." rest => span_digits rest
    | _ => (EmptyString, r1)
    end in
  if (String.eqb ip "" && String.eqb fp "")%bool then NaN
  else
    let m := (inject_Z (Z.of_N (digits_value ip))
              + inject_Z (Z.of_N (digits_value fp))
                / inject_Z (10 ^ Z.of_nat (String.length fp)))%Q in
    let q := (m * Qpower 10 (exponent r2))%Q in
    Fin (if neg then Qopp q else q).

Definition parseFloat (s : string) : number :=
  let (neg, body) := split_sign (skip_spaces s) in
  if String.prefix "Infinity" body then Infinity neg
  else parse_decimal neg body.

(** [parseFloat(v)] for an argument that is not a string: the argument is
    converted to a string first.  A number prints as a literal that parses
    back to itself; an array prints its elements separated by commas, so
    only its first element counts; anything else prints as text that is no
    number. *)
Fixpoint parseFloat_value (v : value) : number :=
  match v with
  | Str s => parseFloat s
  | Num n => n
  | Arr (x :: _) =>
      match x with
      | Undefined | Null => NaN
      | _ => parseFloat_value x
      end
  | _ => NaN
  end.

(** Equality of numbers as JavaScript's [===] on non-[NaN] values sees it:
    two finite numbers are equal when they are the same rational. *)
Definition num_eq (x y : number) : Prop :=
  match x, y with
  | Fin p, Fin q => (p == q)%Q
  | Infinity a, Infinity b => a = b
  | _, _ => False
  end.

Definition no_digit_head (s : string) : Prop :=
  match s with
  | String c _ => is_digit c = false
  | EmptyString => True
  end.

(** What is checked of each two-digit fraction [dec2 r]. *)
Definition dec2_check (r : Z) : bool :=
  (String.eqb (fst (span_digits (dec2 r))) (dec2 r)
   && String.eqb (snd (span_digits (dec2 r))) ""
   && N.eqb (digits_value (dec2 r)) (Z.to_N r)
   && Nat.eqb (String.length (dec2 r)) 2)%bool.

(** The sign [toFixed] prints. *)
Definition sign_of (negative : bool) : string := if negative then "-" else "".

(** [x * 100] *)
Definition times100 (x : number) : number :=
  match x with
  | NaN => NaN
  | Infinity neg => Infinity neg
  | Fin q => Fin (q * 100)
  end.

(** [x / 100] *)
Definition div100 (x : number) : number :=
  match x with
  | NaN => NaN
  | Infinity neg => Infinity neg
  | Fin q => Fin (q / 100)
  end.

End Js.

(** ** The processor's SDK, thrown errors and the effect of a call *)

Module Sdk.
Import Js.

(** An [Error] object as a [catch] clause sees it. The SDK's [ApiError]
    carries the HTTP status in [statusCode]; a [TypeError] or a network
    failure has none. *)
Record js_error : Type := mk_error {
  err_name : string;
  err_message : string;
  err_statusCode : option Z
}.

Inductive MedusaErrorTypes : Type :=
| INVALID_DATA
| PAYMENT_AUTHORIZATION_ERROR.

Inductive thrown : Type :=
| Raised (e : js_error)
| MedusaError (type : MedusaErrorTypes) (message : string).

Inductive outcome (A : Type) : Type :=
| Return (a : A)
| Throw (e : thrown).
Arguments Return {A} a.
Arguments Throw {A} e.

Definition TypeError (msg : string) : thrown :=
  Raised (mk_error "TypeError" msg None).

(** [error.statusCode] *)
Definition statusCode (e : thrown) : option Z :=
  match e with
  | Raised e => err_statusCode e
  | MedusaError _ _ => None
  end.

(** [error.statusCode === code] *)
Definition status_is (code : Z) (e : thrown) : bool :=
  match statusCode e with
  | Some c => Z.eqb c code
  | None => false
  end.

(** [error.message] *)
Definition message (e : thrown) : string :=
  match e with
  | Raised e => err_message e
  | MedusaError _ m => m
  end.

(** [`${error.message || error}`]: the message, or for an empty message
    what [Error.prototype.toString] prints, which is then the name. *)
Definition error_text (e : thrown) : string :=
  if String.eqb (message e) "" then
    match e with
    | Raised e => err_name e
    | MedusaError _ _ => "Error"
    end
  else message e.

(** [v.k] on a value that may be [null] or [undefined] *)
Definition member (k : string) (v : value) : outcome value :=
  if nullish v
  then Throw (TypeError ("Cannot read properties of " ++
                (match v with Null => "null" | _ => "undefined" end) ++
                " (reading '" ++ k ++ "')"))
  else Return (prop k v).

(** [const { k, ... } = v]: reading the first property [k] fails when [v]
    is [null] or [undefined]; [source] is the text of the right-hand side. *)
Definition destructure (k source : string) (v : value) : outcome value :=
  if nullish v
  then Throw (TypeError ("Cannot destructure property '" ++ k ++ "' of '" ++
                source ++ "' as it is " ++
                (match v with Null => "null" | _ => "undefined" end) ++ "."))
  else Return (prop k v).

(** The requests the adapter sends: the Orders, Payments and Vault
    controllers of the SDK.  Every order and refund request also carries
    the constant header [prefer: "return=representation"]. *)
Inductive call : Type :=
| createOrder (body : value)
| captureOrder (id : value)
| getOrder (id : value)
| refundCapturedPayment (captureId : value) (body : value)
| createSetupToken (body : value) (paypalRequestId : value)
| listCustomerPaymentTokens (customerId : value) (pageSize : Z).

(** The processor answers a request, given the requests made before it,
    with [response.result] or with a thrown error. *)
Definition Processor : Type := list call -> call -> js_error + value.

(** An asynchronous adapter method: it reads the processor, extends the
    trace of requests and returns or throws. *)
Definition Eff (A : Type) : Type :=
  Processor -> list call -> outcome A * list call.

Definition ret {A} (a : A) : Eff A := fun _ tr => (Return a, tr).

Definition throw {A} (e : thrown) : Eff A := fun _ tr => (Throw e, tr).

Definition lift {A} (o : outcome A) : Eff A := fun _ tr => (o, tr).

Definition bind {A B} (m : Eff A) (k : A -> Eff B) : Eff B :=
  fun P tr =>
    match m P tr with
    | (Return a, tr') => k a P tr'
    | (Throw e, tr') => (Throw e, tr')
    end.

(** [try { m } catch (error) { h error }] *)
Definition try_catch {A} (m : Eff A) (h : thrown -> Eff A) : Eff A :=
  fun P tr =>
    match m P tr with
    | (Return a, tr') => (Return a, tr')
    | (Throw e, tr') => h e P tr'
    end.

(** [(await controller.method(request)).result] *)
Definition request (c : call) : Eff value :=
  fun P tr =>
    match P tr c with
    | inl e => (Throw (Raised e), (tr ++ [c])%list)
    | inr v => (Return v, (tr ++ [c])%list)
    end.

(** Running a method from an empty trace. *)
Definition run {A} (m : Eff A) (P : Processor) : outcome A * list call :=
  m P [].

End Sdk.

Declare Scope eff_scope.
Delimit Scope eff_scope with eff.
Notation "x <- m ;; k" := (Sdk.bind m (fun x => k))
  (at level 61, m at next level, right associativity) : eff_scope.

(** Unfolds the plumbing of [Eff] so that a method shows as a case
    analysis on the processor's answers. *)
Ltac unfold_eff :=
  unfold Sdk.run, Sdk.try_catch, Sdk.bind, Sdk.lift, Sdk.request, Sdk.ret,
    Sdk.throw.

(** ** [src/service.ts]: the current revision *)

Module Service.
Import Js Sdk.
Local Open Scope eff_scope.

Inductive PaymentSessionStatus : Type :=
| PENDING
| REQUIRES_MORE
| CAPTURED
| CANCELED
| ERROR.

Inductive PaymentActions : Type :=
| SUCCESSFUL
| FAILED
| AUTHORIZED
| NOT_SUPPORTED.

(** A chain of optional accesses [v?.a?.[0]?.b]. *)
Inductive step : Type :=
| K (k : string)
| I0.

Definition access (v : value) (s : step) : value :=
  match s with
  | K k => prop k v
  | I0 => index0 v
  end.

Definition path (ps : list step) (v : value) : value := fold_left access ps v.

(** *** Helpers *)

Definition getCaptureId (result : value) : value :=
  if truthy (prop "capture_id" result) then prop "capture_id" result
  else
    let camelPath :=
      path [K "purchaseUnits"; I0; K "payments"; K "captures"; I0; K "id"] result in
    if truthy camelPath then camelPath
    else
      let snakePath :=
        path [K "purchase_units"; I0; K "payments"; K "captures"; I0; K "id"] result in
      if truthy snakePath then snakePath
      else path [K "payments"; K "captures"; I0; K "id"] result.

Definition getCurrencyCode (data : value) : value :=
  if truthy (prop "currency_code" data) then prop "currency_code" data
  else
    let camelPath := path [K "purchaseUnits"; I0; K "amount"; K "currencyCode"] data in
    if truthy camelPath then camelPath
    else
      let snakePath :=
        path [K "purchase_units"; I0; K "amount"; K "currency_code"] data in
      if truthy snakePath then snakePath
      else Str "USD".

(** [new BigNumber(amount).numeric] of the host framework: the number
    itself; the constructor rejects [NaN].  The text of the library's error
    is abbreviated here; no statement below depends on it. *)
Definition BigNumber_numeric (amount : number) : outcome number :=
  match amount with
  | NaN => Throw (Raised (mk_error "Error" "Invalid BigNumber value: NaN" None))
  | _ => Return amount
  end.

(** [v.toUpperCase()] on a value that need not be a string *)
Definition upper (v : value) : outcome value :=
  match v with
  | Str s => Return (Str (toUpperCase s))
  | Undefined | Null => member "toUpperCase" v
  | _ => Throw (TypeError "currencyCode.toUpperCase is not a function")
  end.

(** *** Status mapping *)

Record StatusResult : Type := mk_status {
  status : PaymentSessionStatus;
  data : value
}.

Definition getStatus (paypalOrder : value) : outcome StatusResult :=
  match member "status" paypalOrder with
  | Throw e => Throw e
  | Return status =>
      let data := paypalOrder in
      if is_str "CREATED" status || is_str "SAVED" status then
        Return (mk_status PENDING data)
      else if is_str "APPROVED" status then Return (mk_status PENDING data)
      else if is_str "PAYER_ACTION_REQUIRED" status then
        Return (mk_status REQUIRES_MORE data)
      else if is_str "COMPLETED" status then Return (mk_status CAPTURED data)
      else if is_str "VOIDED" status then Return (mk_status CANCELED data)
      else Return (mk_status PENDING data)
  end.

(** *** Core payment methods *)

Record InitiatePaymentInput : Type := {
  currency_code : string;
  amount : number;
  init_data : value
}.

Record InitiatePaymentOutput : Type := {
  init_id : value;
  init_status : PaymentSessionStatus;
  init_result : value
}.

(** The request body [initiatePayment] builds before it calls the
    processor. *)
Definition order_body (input : InitiatePaymentInput) (amount_value : string)
  : value :=
  let data := init_data input in
  let body :=
    [("intent", Str "CAPTURE");
     ("purchaseUnits",
      Arr [Obj [("amount",
                 Obj [("currencyCode", Str (toUpperCase (currency_code input)));
                      ("value", Str amount_value)]);
                ("customId", or_else (prop "session_id" data) Undefined)]])] in
  if truthy (prop "resource_id" data) && truthy (prop "is_saved_token" data)
  then Obj (set_field "paymentSource"
              (Obj [("token", Obj [("id", prop "resource_id" data);
                                   ("type", Str "BILLING_AGREEMENT")])]) body)
  else Obj (set_field "applicationContext"
              (Obj [("userAction", Str "PAY_NOW")]) body).

Definition initiatePayment (input : InitiatePaymentInput)
  : Eff InitiatePaymentOutput :=
  try_catch
    (numeric <- lift (BigNumber_numeric (amount input)) ;;
     order <- request (createOrder (order_body input (toFixed2 numeric))) ;;
     id <- lift (member "id" order) ;;
     st <- lift (getStatus order) ;;
     ret {| init_id := id; init_status := status st; init_result := data st |})
    (fun error =>
       throw (MedusaError PAYMENT_AUTHORIZATION_ERROR
                ("PayPal initiatePayment failed: " ++ error_text error))).

Record PaymentInput : Type := {
  in_data : value;
  in_context : value
}.

(** [{ ...statusResult, data: { ...statusResult.data, capture_id, currency_code } }] *)
Definition with_capture (result : value) : outcome StatusResult :=
  let captureId := getCaptureId result in
  let currencyCode := getCurrencyCode result in
  match getStatus result with
  | Throw e => Throw e
  | Return statusResult =>
      Return (mk_status (status statusResult)
                (Obj (set_field "currency_code" currencyCode
                        (set_field "capture_id" captureId
                           (spread (data statusResult))))))
  end.

Definition getPaymentStatus (input : PaymentInput) : Eff StatusResult :=
  let data := in_data input in
  let orderId := prop "id" data in
  if negb (truthy orderId) then ret (mk_status PENDING (or_else data (Obj [])))
  else
    try_catch
      (result <- request (getOrder orderId) ;;
       lift (with_capture result))
      (fun _ => ret (mk_status ERROR (or_else data (Obj [])))).

Definition authorizePayment (input : PaymentInput) : Eff StatusResult :=
  let data := in_data input in
  let orderId := prop "id" data in
  if negb (truthy orderId) then
    throw (MedusaError INVALID_DATA "No PayPal order ID found for authorizePayment")
  else
    try_catch
      (result <- request (captureOrder orderId) ;;
       lift (with_capture result))
      (fun error =>
         if status_is 422 error then getPaymentStatus input
         else
           throw (MedusaError PAYMENT_AUTHORIZATION_ERROR
                    ("PayPal authorizePayment failed: " ++ error_text error))).

Definition capturePayment (input : PaymentInput) : Eff StatusResult :=
  getPaymentStatus input.

Definition retrievePayment (input : PaymentInput) : Eff StatusResult :=
  getPaymentStatus input.

(** The amount is a JavaScript number, or left out; the host's wider
    [BigNumberInput] (strings, wrapped numbers) is not modelled. *)
Record RefundPaymentInput : Type := {
  refund_data : value;
  refund_amount : option number
}.

(** [if (amount)]: an amount that is given, not zero and not [NaN]. *)
Definition amount_given (amount : option number) : bool :=
  match amount with
  | Some n => number_truthy n
  | None => false
  end.

Definition refund_body (data : value) (amount : option number) : outcome value :=
  match amount with
  | Some n =>
      if number_truthy n then
        let currencyCode := getCurrencyCode data in
        match BigNumber_numeric n with
        | Throw e => Throw e
        | Return numeric =>
            let refundValue := toFixed2 numeric in
            match upper currencyCode with
            | Throw e => Throw e
            | Return code =>
                Return (Obj [("amount", Obj [("currencyCode", code);
                                             ("value", Str refundValue)])])
            end
        end
      else Return (Obj [])
  | None => Return (Obj [])
  end.

Definition refundPayment (input : RefundPaymentInput) : Eff value :=
  let data := refund_data input in
  let amount := refund_amount input in
  let captureId := getCaptureId data in
  if negb (truthy captureId) then
    throw (MedusaError INVALID_DATA "No capture ID found for refund")
  else
    try_catch
      (refundRequest <- lift (refund_body data amount) ;;
       request (refundCapturedPayment captureId refundRequest))
      (fun error =>
         throw (MedusaError PAYMENT_AUTHORIZATION_ERROR
                  ("PayPal refundPayment failed: " ++ error_text error))).

(** *** Webhooks *)

Record WebhookActionResult : Type := mk_webhook {
  action : PaymentActions;
  session_id : value;
  webhook_amount : number
}.

Definition getAmount (obj : value) : number :=
  parseFloat_value (or_else (path [K "amount"; K "value"] obj) (Str "0")).

Definition getWebhookActionAndData (webhookData : value)
  : outcome WebhookActionResult :=
  let payload := webhookData in
  match destructure "resource" "payload" payload with
  | Throw e => Throw e
  | Return resource =>
      let event_type := prop "event_type" payload in
      let session := or_else (prop "custom_id" resource) (prop "customId" resource) in
      if is_str "PAYMENT.CAPTURE.COMPLETED" event_type then
        Return (mk_webhook SUCCESSFUL session (getAmount resource))
      else if is_str "PAYMENT.CAPTURE.DENIED" event_type
              || is_str "PAYMENT.CAPTURE.DECLINED" event_type then
        Return (mk_webhook FAILED session (getAmount resource))
      else if is_str "CHECKOUT.ORDER.APPROVED" event_type then
        let units := or_else (or_else (prop "purchaseUnits" resource)
                                (prop "purchase_units" resource)) (Arr []) in
        Return (mk_webhook AUTHORIZED
                  (or_else (path [I0; K "custom_id"] units)
                     (path [I0; K "customId"] units))
                  (parseFloat_value
                     (or_else (path [I0; K "amount"; K "value"] units) (Str "0"))))
      else if is_str "PAYMENT.CAPTURE.REFUNDED" event_type then
        Return (mk_webhook SUCCESSFUL session (getAmount resource))
      else Return (mk_webhook NOT_SUPPORTED (Str "") (Fin 0))
  end.

(** *** Payment methods *)

Record PaymentMethod : Type := mk_method {
  method_id : value;
  method_data : value
}.

Record MethodInput : Type := {
  method_context : value;
  method_input_data : value
}.

Definition accountHolderId (context : value) : value :=
  path [K "account_holder"; K "data"; K "id"] context.

Definition savePaymentMethod (input : MethodInput) : Eff PaymentMethod :=
  let context := method_context input in
  let data := method_input_data input in
  if negb (truthy (accountHolderId context)) then
    throw (MedusaError INVALID_DATA
             "Missing account holder ID for saving payment method")
  else
    try_catch
      (let setupTokenRequest :=
         Obj [("payment_source",
               Obj [("card", or_else (prop "card" data) (Obj []))]);
              ("customer", Obj [("id", accountHolderId context)])] in
       result <- request (createSetupToken setupTokenRequest
                            (prop "idempotency_key" context)) ;;
       id <- lift (member "id" result) ;;
       ret (mk_method (or_else id (Str "")) result))
      (fun error =>
         throw (MedusaError PAYMENT_AUTHORIZATION_ERROR
                  ("PayPal savePaymentMethod failed: " ++ error_text error))).

(** [tokens.map((token) => ({ id: token.id, data: token }))] *)
Fixpoint map_tokens (tokens : list value) : outcome (list PaymentMethod) :=
  match tokens with
  | [] => Return []
  | token :: rest =>
      match member "id" token with
      | Throw e => Throw e
      | Return id =>
          match map_tokens rest with
          | Throw e => Throw e
          | Return ms => Return (mk_method id token :: ms)
          end
      end
  end.

Definition token_methods (result : value) : outcome (list PaymentMethod) :=
  match member "paymentTokens" result with
  | Throw e => Throw e
  | Return paymentTokens =>
      match or_else paymentTokens (Arr []) with
      | Arr tokens => map_tokens tokens
      | _ => Throw (TypeError "(intermediate value).map is not a function")
      end
  end.

Definition listPaymentMethods (context : value) : Eff (list PaymentMethod) :=
  if negb (truthy (accountHolderId context)) then ret []
  else
    try_catch
      (result <- request (listCustomerPaymentTokens (accountHolderId context) 100) ;;
       lift (token_methods result))
      (fun error =>
         if status_is 404 error then ret []
         else
           throw (MedusaError INVALID_DATA
                    ("PayPal listPaymentMethods failed: " ++ error_text error))).

End Service.

(** ** [unnamed/part_001]: the revision before the current one

    Amounts are minor units here: divided by 100 on the way to the
    processor, multiplied by 100 on the way back.  [getCaptureId],
    [getStatus] and the remaining methods read as in [Service]. *)

Module Rev1.
Import Js Sdk Service.
Local Open Scope eff_scope.

Definition order_body (input : InitiatePaymentInput) (amount_value : string)
  : value :=
  Obj [("intent", Str "CAPTURE");
       ("purchaseUnits",
        Arr [Obj [("amount",
                   Obj [("currencyCode", Str (toUpperCase (currency_code input)));
                        ("value", Str amount_value)]);
                  ("customId",
                   or_else (prop "session_id" (init_data input)) Undefined)]]);
       ("applicationContext", Obj [("userAction", Str "PAY_NOW")])].

Definition initiatePayment (input : InitiatePaymentInput)
  : Eff InitiatePaymentOutput :=
  try_catch
    (order <- request (createOrder
                         (order_body input (toFixed2 (div100 (amount input))))) ;;
     id <- lift (member "id" order) ;;
     st <- lift (getStatus order) ;;
     ret {| init_id := id; init_status := status st; init_result := data st |})
    (fun error =>
       throw (MedusaError PAYMENT_AUTHORIZATION_ERROR
                ("PayPal initiatePayment failed: " ++ error_text error))).

(** [amount && typeof amount === "number"]: the second test holds by the
    type of [amount]. *)
Definition refund_body (data : value) (amount : option number) : outcome value :=
  match amount with
  | Some n =>
      if number_truthy n then
        let purchaseUnits :=
          or_else (or_else (prop "purchaseUnits" data) (prop "purchase_units" data))
            (Arr []) in
        let currencyCode :=
          or_else (or_else (path [I0; K "amount"; K "currencyCode"] purchaseUnits)
                     (path [I0; K "amount"; K "currency_code"] purchaseUnits))
            (Str "USD") in
        match upper currencyCode with
        | Throw e => Throw e
        | Return code =>
            Return (Obj [("amount", Obj [("currencyCode", code);
                                         ("value", Str (toFixed2 (div100 n)))])])
        end
      else Return (Obj [])
  | None => Return (Obj [])
  end.

Definition refundPayment (input : RefundPaymentInput) : Eff value :=
  let data := refund_data input in
  let amount := refund_amount input in
  let captureId := getCaptureId data in
  if negb (truthy captureId) then
    throw (MedusaError INVALID_DATA "No capture ID found for refund")
  else
    try_catch
      (refundRequest <- lift (refund_body data amount) ;;
       request (refundCapturedPayment captureId refundRequest))
      (fun error =>
         throw (MedusaError PAYMENT_AUTHORIZATION_ERROR
                  ("PayPal refundPayment failed: " ++ error_text error))).

Definition getAmount (obj : value) : number :=
  times100 (parseFloat_value (or_else (path [K "amount"; K "value"] obj) (Str "0"))).

Definition getWebhookActionAndData (webhookData : value)
  : outcome WebhookActionResult :=
  let payload := webhookData in
  match destructure "resource" "payload" payload with
  | Throw e => Throw e
  | Return resource =>
      let event_type := prop "event_type" payload in
      let session := or_else (prop "custom_id" resource) (prop "customId" resource) in
      if is_str "PAYMENT.CAPTURE.COMPLETED" event_type then
        Return (mk_webhook SUCCESSFUL session (getAmount resource))
      else if is_str "PAYMENT.CAPTURE.DENIED" event_type
              || is_str "PAYMENT.CAPTURE.DECLINED" event_type then
        Return (mk_webhook FAILED session (getAmount resource))
      else if is_str "CHECKOUT.ORDER.APPROVED" event_type then
        let units := or_else (or_else (prop "purchaseUnits" resource)
                                (prop "purchase_units" resource)) (Arr []) in
        Return (mk_webhook AUTHORIZED
                  (or_else (path [I0; K "custom_id"] units)
                     (path [I0; K "customId"] units))
                  (times100
                     (parseFloat_value
                        (or_else (path [I0; K "amount"; K "value"] units)
                           (Str "0")))))
      else if is_str "PAYMENT.CAPTURE.REFUNDED" event_type then
        Return (mk_webhook SUCCESSFUL session (getAmount resource))
      else Return (mk_webhook NOT_SUPPORTED (Str "") (Fin 0))
  end.

End Rev1.

(** ** [unnamed/part_000]: the oldest TypeScript revision

    No [getCaptureId] helper yet: [refundPayment] looks the capture id up
    itself and knows the snake_case path only.  The webhook event is read
    from [webhookData.data].  The order body is the one of [Rev1]. *)

Module Rev0.
Import Js Sdk Service.
Local Open Scope eff_scope.

Definition initiatePayment (input : InitiatePaymentInput)
  : Eff InitiatePaymentOutput :=
  try_catch
    (order <- request (createOrder
                         (Rev1.order_body input
                            (toFixed2 (div100 (amount input))))) ;;
     id <- lift (member "id" order) ;;
     st <- lift (getStatus order) ;;
     ret {| init_id := id; init_status := status st; init_result := data st |})
    (fun error =>
       throw (MedusaError PAYMENT_AUTHORIZATION_ERROR
                ("PayPal initiatePayment failed: " ++ error_text error))).

(** The three assignments to [captureId] at the head of [refundPayment]. *)
Definition refund_capture_id (data : value) : value :=
  let captureId := prop "capture_id" data in
  let captureId :=
    if negb (truthy captureId)
    then path [K "purchase_units"; I0; K "payments"; K "captures"; I0; K "id"] data
    else captureId in
  if negb (truthy captureId)
  then path [K "payments"; K "captures"; I0; K "id"] data
  else captureId.

(** [amount && typeof amount === "number"]: the second test holds by the
    type of [amount]. *)
Definition refund_body (data : value) (amount : option number) : outcome value :=
  match amount with
  | Some n =>
      if number_truthy n then
        let currencyCode :=
          or_else (path [K "purchase_units"; I0; K "amount"; K "currency_code"] data)
            (Str "USD") in
        match upper currencyCode with
        | Throw e => Throw e
        | Return code =>
            Return (Obj [("amount", Obj [("currencyCode", code);
                                         ("value", Str (toFixed2 (div100 n)))])])
        end
      else Return (Obj [])
  | None => Return (Obj [])
  end.

Definition refundPayment (input : RefundPaymentInput) : Eff value :=
  let data := refund_data input in
  let amount := refund_amount input in
  let captureId := refund_capture_id data in
  if negb (truthy captureId) then
    throw (MedusaError INVALID_DATA "No capture ID found for refund")
  else
    try_catch
      (refundRequest <- lift (refund_body data amount) ;;
       request (refundCapturedPayment captureId refundRequest))
      (fun error =>
         throw (MedusaError PAYMENT_AUTHORIZATION_ERROR
                  ("PayPal refundPayment failed: " ++ error_text error))).

Definition getAmount (obj : value) : number :=
  times100 (parseFloat_value (or_else (path [K "amount"; K "value"] obj) (Str "0"))).

Definition getWebhookActionAndData (webhookData : value)
  : outcome WebhookActionResult :=
  match member "data" webhookData with
  | Throw e => Throw e
  | Return event =>
      match destructure "resource" "webhookData.data" event with
      | Throw e => Throw e
      | Return resource =>
          let event_type := prop "event_type" event in
          if is_str "PAYMENT.CAPTURE.COMPLETED" event_type then
            Return (mk_webhook SUCCESSFUL (prop "custom_id" resource)
                      (getAmount resource))
          else if is_str "PAYMENT.CAPTURE.DENIED" event_type
                  || is_str "PAYMENT.CAPTURE.DECLINED" event_type then
            Return (mk_webhook FAILED (prop "custom_id" resource)
                      (getAmount resource))
          else if is_str "CHECKOUT.ORDER.APPROVED" event_type then
            Return (mk_webhook AUTHORIZED
                      (path [K "purchase_units"; I0; K "custom_id"] resource)
                      (getAmount (path [K "purchase_units"; I0] resource)))
          else if is_str "PAYMENT.CAPTURE.REFUNDED" event_type then
            Return (mk_webhook SUCCESSFUL (prop "custom_id" resource)
                      (getAmount resource))
          else Return (mk_webhook NOT_SUPPORTED (Str "") (Fin 0))
      end
  end.

End Rev0.

(** ** The contract in the specification's words, and sample processors *)

Module Contract.
Import Js Sdk Service.

(** An ordered list of accessor attempts: the first value that passes the
    [if (...)] test, and the last resort when none does. *)
Fixpoint first_truthy (attempts : list value) (fallback : value) : value :=
  match attempts with
  | [] => fallback
  | v :: rest => if truthy v then v else first_truthy rest fallback
  end.

Definition flat_id : list step := [K "capture_id"].
Definition camel_id : list step :=
  [K "purchaseUnits"; I0; K "payments"; K "captures"; I0; K "id"].
Definition snake_id : list step :=
  [K "purchase_units"; I0; K "payments"; K "captures"; I0; K "id"].
Definition fallback_id : list step := [K "payments"; K "captures"; I0; K "id"].

(** The status table of the specification. *)
Definition status_table : list (string * PaymentSessionStatus) :=
  [("CREATED", PENDING); ("SAVED", PENDING); ("APPROVED", PENDING);
   ("PAYER_ACTION_REQUIRED", REQUIRES_MORE); ("COMPLETED", CAPTURED);
   ("VOIDED", CANCELED)].

Definition table_status (status : value) : PaymentSessionStatus :=
  match status with
  | Str s =>
      match find (fun entry => String.eqb (fst entry) s) status_table with
      | Some entry => snd entry
      | None => PENDING
      end
  | _ => PENDING
  end.

(** The event types [getWebhookActionAndData] has a case for. *)
Definition event_types : list string :=
  ["PAYMENT.CAPTURE.COMPLETED"; "PAYMENT.CAPTURE.DENIED";
   "PAYMENT.CAPTURE.DECLINED"; "CHECKOUT.ORDER.APPROVED";
   "PAYMENT.CAPTURE.REFUNDED"].

Definition recognized (event_type : value) : bool :=
  existsb (fun s => is_str s event_type) event_types.

(** The amount string a request to the processor carries. *)
Definition amount_value (c : call) : value :=
  match c with
  | createOrder body => path [K "purchaseUnits"; I0; K "amount"; K "value"] body
  | refundCapturedPayment _ body => path [K "amount"; K "value"] body
  | _ => Undefined
  end.

(** [A / 100] printed with two fraction digits. *)
Definition cents_string (A : Z) : string :=
  sign_of (A <? 0)%Z ++ dec (Z.abs A / 100) ++ "." ++ dec2 (Z.abs A mod 100).

(** [A] itself printed with two fraction digits. *)
Definition units_string (A : Z) : string :=
  sign_of (A <? 0)%Z ++ dec (Z.abs A) ++ ".00".

(** Sample processors. *)
Definition answer (result : value) : Processor := fun _ _ => inr result.

Definition api_error (code : Z) (msg : string) : js_error :=
  mk_error "Error" msg (Some code).

Definition reject (e : js_error) : Processor := fun _ _ => inl e.

(** Capture is refused with the given status; the order can still be read. *)
Definition capture_refused (code : Z) (order : value) : Processor :=
  fun _ c =>
    match c with
    | captureOrder _ => inl (api_error code "ORDER_ALREADY_CAPTURED")
    | _ => inr order
    end.

Definition completed_order : value :=
  Obj [("id", Str "O-1"); ("status", Str "COMPLETED");
       ("purchaseUnits",
        Arr [Obj [("payments",
                   Obj [("captures", Arr [Obj [("id", Str "CAP-CAMEL")]])])]]);
       ("purchase_units",
        Arr [Obj [("payments",
                   Obj [("captures", Arr [Obj [("id", Str "CAP-SNAKE")]])])]])].

Definition capture_completed_event : value :=
  Obj [("event_type", Str "PAYMENT.CAPTURE.COMPLETED");
       ("resource", Obj [("custom_id", Str "sess_1");
                         ("amount", Obj [("value", Str "12.34")])])].

Definition holder_context : value :=
  Obj [("account_holder", Obj [("data", Obj [("id", Str "paypal_cus_1")])])].

End Contract.

(** ** [src/service.ts]: options, echo methods and account holders

    The methods of the class that make no call to the processor. *)

Module Provider.
Import Js Sdk Service.
Local Open Scope eff_scope.

Record PayPalOptions : Type := {
  clientId : value;
  clientSecret : value;
  isSandbox : value
}.

Definition validateOptions (options : PayPalOptions) : outcome unit :=
  if negb (truthy (clientId options)) then
    Throw (MedusaError INVALID_DATA
             "Required option `clientId` is missing in PayPal provider")
  else if negb (truthy (clientSecret options)) then
    Throw (MedusaError INVALID_DATA
             "Required option `clientSecret` is missing in PayPal provider")
  else Return tt.

Inductive Environment : Type :=
| Sandbox
| Production.

(** The environment the constructor hands to the SDK client. *)
Definition environment (options : PayPalOptions) : Environment :=
  if truthy (isSandbox options) then Sandbox else Production.

(** [cancelPayment] returns [{ data: input.data }]: the data as it came. *)
Definition cancelPayment (input : PaymentInput) : Eff value :=
  ret (in_data input).

Definition deletePayment (input : PaymentInput) : Eff value :=
  cancelPayment input.

Definition updatePayment (input : InitiatePaymentInput)
  : Eff InitiatePaymentOutput :=
  initiatePayment input.

(** *** Account holders *)

(** [s.trim()], on the ASCII kinds of white space. *)
Fixpoint trim_end (s : string) : string :=
  match s with
  | EmptyString => EmptyString
  | String c rest =>
      let rest' := trim_end rest in
      if (is_space c && String.eqb rest' "")%bool then EmptyString
      else String c rest'
  end.

Definition trim (s : string) : string := trim_end (skip_spaces s).

(** The host's customer record; [None] in a name field stands for [null]
    or [undefined], which [??] treats alike. *)
Record Customer : Type := {
  customer_id : string;
  customer_email : value;
  company_name : value;
  first_name : option string;
  last_name : option string;
  phone : value
}.

Record HolderContext : Type := {
  account_holder : value;
  customer : option Customer
}.

(** [v ?? ""] in a template *)
Definition text_or_empty (v : option string) : string :=
  match v with
  | Some s => s
  | None => ""
  end.

(** [`${customer?.first_name ?? ""} ${customer?.last_name ?? ""}`.trim()] *)
Definition full_name (c : option Customer) : string :=
  match c with
  | Some c =>
      trim (text_or_empty (first_name c) ++ " " ++ text_or_empty (last_name c))
  | None => trim (" ")
  end.

Record AccountHolderOutput : Type := mk_holder {
  holder_id : value;
  holder_data : value
}.

Definition createAccountHolder (context : HolderContext)
  : outcome AccountHolderOutput :=
  if truthy (path [K "data"; K "id"] (account_holder context)) then
    Return (mk_holder (path [K "data"; K "id"] (account_holder context)) Undefined)
  else
    match customer context with
    | None =>
        Throw (MedusaError INVALID_DATA
                 "No customer provided while creating account holder")
    | Some c =>
        let paypalCustomerId := "paypal_" ++ customer_id c in
        Return (mk_holder (Str paypalCustomerId)
                  (Obj [("id", Str paypalCustomerId);
                        ("email", customer_email c);
                        ("name",
                         or_else (or_else (company_name c)
                                    (Str (full_name (Some c))))
                           Undefined);
                        ("phone", phone c)]))
    end.

(** [{ ...target, ...source }] on the fields of [source] *)
Definition assign (target source : list (string * value))
  : list (string * value) :=
  fold_left (fun acc entry => set_field (fst entry) (snd entry) acc) source target.

Definition updateAccountHolder (context : HolderContext) (data : value)
  : outcome value :=
  if negb (truthy (path [K "data"; K "id"] (account_holder context))) then
    Throw (MedusaError INVALID_DATA "Missing account holder ID")
  else
    let stored := prop "data" (account_holder context) in
    let customer_prop (f : Customer -> value) :=
      match customer context with
      | Some c => f c
      | None => Undefined
      end in
    Return
      (Obj (set_field "name"
              (or_else (or_else (customer_prop company_name)
                          (Str (full_name (customer context))))
                 (prop "name" stored))
              (set_field "email"
                 (or_else (customer_prop customer_email) (prop "email" stored))
                 (assign (spread stored) (spread data))))).

Definition deleteAccountHolder (context : HolderContext) : outcome unit :=
  if negb (truthy (path [K "data"; K "id"] (account_holder context))) then
    Throw (MedusaError INVALID_DATA "Missing account holder ID")
  else Return tt.

End Provider.

(** ** Vocabulary for the statements about the remaining code *)

Module Shapes.
Import Js Sdk Service Provider.

(** An outcome that is a value or one of the adapter's own errors: no
    error of the SDK or of the runtime escapes. *)
Definition contained {A : Type} (o : outcome A) : Prop :=
  match o with
  | Throw (Raised _) => False
  | _ => True
  end.

(** A processor answer the adapter cannot read an order from. *)
Definition unusable (a : js_error + value) : bool :=
  match a with
  | inl _ => true
  | inr v => nullish v
  end.

Definition has_key (k : string) (fs : list (string * value)) : bool :=
  existsb (fun entry => String.eqb k (fst entry)) fs.

(** An object lists each of its keys once. *)
Definition distinct_keys (fs : list (string * value)) : Prop :=
  NoDup (map fst fs).

(** The action each webhook event type stands for. *)
Definition action_table : list (string * PaymentActions) :=
  [("PAYMENT.CAPTURE.COMPLETED", SUCCESSFUL);
   ("PAYMENT.CAPTURE.DENIED", FAILED);
   ("PAYMENT.CAPTURE.DECLINED", FAILED);
   ("CHECKOUT.ORDER.APPROVED", AUTHORIZED);
   ("PAYMENT.CAPTURE.REFUNDED", SUCCESSFUL)].

Definition event_action (event_type : value) : PaymentActions :=
  match event_type with
  | Str s =>
      match find (fun entry => String.eqb (fst entry) s) action_table with
      | Some entry => snd entry
      | None => NOT_SUPPORTED
      end
  | _ => NOT_SUPPORTED
  end.

(** The event types whose amount and session id sit on the resource. *)
Definition capture_event (event_type : value) : bool :=
  is_str "PAYMENT.CAPTURE.COMPLETED" event_type
  || is_str "PAYMENT.CAPTURE.DENIED" event_type
  || is_str "PAYMENT.CAPTURE.DECLINED" event_type
  || is_str "PAYMENT.CAPTURE.REFUNDED" event_type.

(** The data [authorizePayment] and [getPaymentStatus] return for an order. *)
Definition order_data (result : value) : value :=
  Obj (set_field "currency_code" (getCurrencyCode result)
         (set_field "capture_id" (getCaptureId result) (spread result))).

(** The number a decimal literal denotes, exactly; [parseFloat] in the
    program rounds it to the nearest double. *)
Definition decimal_value (s : string) : number := parseFloat s.

End Shapes.

(** * Properties *)

(** ** Decimal strings: printing and parsing *)

Section DecimalStrings.
Import Js.

Lemma span_digits_uint (d : uint) (rest : string) :
  no_digit_head rest ->
  span_digits (NilEmpty.string_of_uint d ++ rest) = (NilEmpty.string_of_uint d, rest).
Proof.
  intros Hrest.
  induction d as [|d IH|d IH|d IH|d IH|d IH|d IH|d IH|d IH|d IH|d IH];
    cbn [NilEmpty.string_of_uint String.append span_digits];
    try (change (is_digit _) with true; cbn iota; rewrite IH; reflexivity).
  destruct rest as [|c rest]; cbn [span_digits]; [reflexivity|].
  cbn in Hrest. rewrite Hrest. reflexivity.
Qed.

Lemma to_uint_nonnil (n : N) : N.to_uint n <> Nil.
Proof.
  destruct n as [|p]; cbn; [discriminate|].
  apply DecimalPos.Unsigned.to_uint_nonnil.
Qed.

Lemma dec_head (n : Z) :
  exists c s, dec n = String c s /\ is_digit c = true.
Proof.
  unfold dec. pose proof (to_uint_nonnil (Z.to_N n)) as Hn.
  destruct (N.to_uint (Z.to_N n)); [congruence| ..];
    cbn [NilEmpty.string_of_uint]; eexists _, _; split; reflexivity.
Qed.

Lemma digits_value_dec (n : Z) : digits_value (dec n) = Z.to_N n.
Proof.
  unfold digits_value, dec.
  rewrite NilEmpty.usu. apply DecimalN.Unsigned.of_to.
Qed.

Lemma span_digits_dec (n : Z) (rest : string) :
  no_digit_head rest -> span_digits (dec n ++ rest) = (dec n, rest).
Proof. apply span_digits_uint. Qed.

Lemma dec2_checked :
  forallb dec2_check (map Z.of_nat (seq 0 100)) = true.
Proof. vm_compute. reflexivity. Qed.

Lemma dec2_facts (r : Z) :
  (0 <= r < 100)%Z ->
  span_digits (dec2 r) = (dec2 r, "")
  /\ digits_value (dec2 r) = Z.to_N r
  /\ String.length (dec2 r) = 2%nat.
Proof.
  intros Hr.
  assert (Hin : In r (map Z.of_nat (seq 0 100))).
  { apply in_map_iff. exists (Z.to_nat r). split; [lia|].
    apply in_seq. lia. }
  pose proof (proj1 (forallb_forall _ _) dec2_checked r Hin) as Hc.
  unfold dec2_check in Hc.
  repeat (apply andb_true_iff in Hc; destruct Hc as [Hc ?]).
  repeat match goal with
         | H : String.eqb _ _ = true |- _ => apply String.eqb_eq in H
         | H : N.eqb _ _ = true |- _ => apply N.eqb_eq in H
         | H : Nat.eqb _ _ = true |- _ => apply Nat.eqb_eq in H
         end.
  repeat split; try assumption.
  destruct (span_digits (dec2 r)) as [a b]; cbn in *; congruence.
Qed.

(** What [toFixed2] prints is read back by [parseFloat]. *)

Lemma digit_head (c : ascii) (s : string) :
  is_digit c = true ->
  skip_spaces (String c s) = String c s
  /\ split_sign (String c s) = (false, String c s)
  /\ String.prefix "Infinity" (String c s) = false.
Proof.
  destruct c as [[] [] [] [] [] [] [] []]; cbn; intros H;
    try discriminate H; repeat split.
Qed.

Lemma parseFloat_signed (neg : bool) (a : Z) (rest : string) :
  parseFloat (sign_of neg ++ dec a ++ rest) = parse_decimal neg (dec a ++ rest).
Proof.
  destruct (dec_head a) as (c & s & Hd & Hc). rewrite Hd.
  destruct (digit_head c (s ++ rest) Hc) as (Hs & Hg & Hi).
  unfold parseFloat. destruct neg; cbn [sign_of String.append].
  - change (skip_spaces (String "-" (String c (s ++ rest))))
      with (String "-" (String c (s ++ rest))).
    cbn [split_sign]. rewrite Hi. reflexivity.
  - rewrite Hs, Hg, Hi. reflexivity.
Qed.

Lemma parse_decimal_fixed (neg : bool) (a b : Z) :
  (0 <= a)%Z -> (0 <= b < 100)%Z ->
  num_eq (parse_decimal neg (dec a ++ "." ++ dec2 b))
         (Fin ((if neg then -1 else 1) * (inject_Z (100 * a + b) / 100))).
Proof.
  intros Ha Hb. unfold parse_decimal.
  rewrite span_digits_dec by reflexivity.
  cbn [String.append].
  destruct (dec2_facts b Hb) as (Hspan & Hval & Hlen).
  rewrite Hspan, Hlen, Hval, digits_value_dec.
  destruct (dec_head a) as (c & s & Hd & _). rewrite Hd at 1.
  cbn [String.eqb andb exponent].
  rewrite !Z2N.id by lia.
  change (10 ^ Z.of_nat 2)%Z with 100%Z.
  destruct neg; unfold num_eq, Qeq; cbn -[Z.mul Z.add Z.opp]; lia.
Qed.

Lemma hundredths_cents (A : Z) : hundredths (inject_Z A / 100) = Z.abs A.
Proof.
  unfold hundredths, Qfloor, Qabs, Qdiv, Qmult, Qplus, Qinv, inject_Z.
  cbn -[Z.mul Z.add Z.abs Z.div].
  symmetry. apply (Z.div_unique _ _ _ 100%Z); lia.
Qed.

Lemma hundredths_units (A : Z) : hundredths (inject_Z A) = (100 * Z.abs A)%Z.
Proof.
  unfold hundredths, Qfloor, Qabs, Qdiv, Qmult, Qplus, Qinv, inject_Z.
  cbn -[Z.mul Z.add Z.abs Z.div].
  symmetry. apply (Z.div_unique _ _ _ 1%Z); lia.
Qed.

End DecimalStrings.

(** ** Amounts on the way to the processor *)

Section Amounts.
Import Js Sdk Service Contract.

Lemma num_eq_Fin (x : number) (p q : Q) :
  num_eq x (Fin p) -> (p == q)%Q -> num_eq x (Fin q).
Proof.
  destruct x; cbn; try tauto.
  intros H1 H2. rewrite H1. exact H2.
Qed.

Lemma nonneg_bool (A : Z) (d : positive) :
  Qle_bool 0 (A # d) = negb (A <? 0)%Z.
Proof.
  unfold Qle_bool. cbn -[Z.mul].
  destruct (Z.leb_spec 0 (A * 1)), (Z.ltb_spec A 0); cbn; try reflexivity; lia.
Qed.

Lemma toFixed2_units (A : Z) : toFixed2 (Fin (inject_Z A)) = units_string A.
Proof.
  unfold toFixed2, units_string.
  rewrite hundredths_units. unfold inject_Z. rewrite nonneg_bool.
  rewrite Z.mul_comm, Z.div_mul, Z.mod_mul by discriminate.
  destruct (A <? 0)%Z; reflexivity.
Qed.

Lemma toFixed2_cents (A : Z) :
  toFixed2 (div100 (Fin (inject_Z A))) = cents_string A.
Proof.
  unfold div100, toFixed2, cents_string.
  rewrite hundredths_cents.
  change (inject_Z A / 100)%Q with (A * 1 # 100)%Q.
  rewrite nonneg_bool.
  replace (A * 1 <? 0)%Z with (A <? 0)%Z by (f_equal; lia).
  destruct (A <? 0)%Z; reflexivity.
Qed.

Lemma parseFloat_units (A : Z) :
  num_eq (parseFloat (units_string A)) (Fin (inject_Z A)).
Proof.
  unfold units_string.
  change ".00" with ("." ++ dec2 0).
  rewrite parseFloat_signed.
  eapply num_eq_Fin; [apply parse_decimal_fixed; lia|].
  destruct (Z.ltb_spec A 0); unfold Qeq; cbn -[Z.mul Z.add Z.abs]; lia.
Qed.

Lemma parseFloat_cents (A : Z) :
  num_eq (parseFloat (cents_string A)) (Fin (inject_Z A / 100)).
Proof.
  unfold cents_string.
  rewrite parseFloat_signed.
  pose proof (Z.mod_pos_bound (Z.abs A) 100 ltac:(lia)) as Hm.
  pose proof (Z.div_pos (Z.abs A) 100 ltac:(lia) ltac:(lia)) as Hd.
  eapply num_eq_Fin; [apply parse_decimal_fixed; lia|].
  rewrite <- Z.div_mod by discriminate.
  destruct (Z.ltb_spec A 0); unfold Qeq; cbn -[Z.mul Z.add Z.abs]; lia.
Qed.

Lemma cents_two_digits (A : Z) :
  String.length (dec2 (Z.abs A mod 100)) = 2%nat.
Proof.
  apply dec2_facts. apply Z.mod_pos_bound. lia.
Qed.

Lemma Qfloor_unique (q : Q) (z : Z) :
  inject_Z z <= q -> q < inject_Z (z + 1) -> Qfloor q = z.
Proof.
  intros Hlo Hhi.
  pose proof (Qfloor_le q) as Hfl. pose proof (Qlt_floor q) as Hfu.
  assert (H1 : (z < Qfloor q + 1)%Z).
  { rewrite Zlt_Qlt. eapply Qle_lt_trans; eassumption. }
  assert (H2 : (Qfloor q < z + 1)%Z).
  { rewrite Zlt_Qlt. eapply Qle_lt_trans; eassumption. }
  lia.
Qed.

(** Any number within half a cent of [A / 100] prints as the exact
    quotient does; this covers the double nearest to [A / 100] for
    [|A| < 2^52]. *)
Lemma toFixed2_half_cent (A : Z) (x : Q) :
  Qabs (x * 100 - inject_Z A) < 1 # 2 ->
  (A = 0%Z -> 0 <= x) ->
  toFixed2 (Fin x) = cents_string A.
Proof.
  intros Hnear Hzero.
  apply Qabs_Qlt_condition in Hnear. destruct Hnear as [Hlo Hhi].
  assert (Hsign : Qle_bool 0 x = negb (A <? 0)%Z /\ hundredths x = Z.abs A).
  { destruct (Z.ltb_spec A 0) as [Hneg|Hpos]; cbn [negb].
    - assert (HA : inject_Z A <= -1).
      { change (-1)%Q with (inject_Z (-1)). rewrite <- Zle_Qle. lia. }
      assert (Hx : x < 0) by lra.
      split.
      + destruct (Qle_bool 0 x) eqn:E; [|reflexivity].
        apply Qle_bool_imp_le in E. lra.
      + unfold hundredths.
        rewrite (Qfloor_comp _ (- x * 100 + (1 # 2))).
        * apply Qfloor_unique.
          -- rewrite Z.abs_neq by lia. rewrite inject_Z_opp. lra.
          -- rewrite inject_Z_plus, Z.abs_neq by lia.
             rewrite inject_Z_opp. change (inject_Z 1) with 1%Q. lra.
        * rewrite (Qabs_neg x) by lra. reflexivity.
    - assert (Hx : 0 <= x).
      { destruct (Z.eq_dec A 0) as [->|Hnz]; [auto|].
        assert (HA : 1 <= inject_Z A).
        { change 1%Q with (inject_Z 1). rewrite <- Zle_Qle. lia. }
        lra. }
      split.
      + apply Qle_bool_iff. exact Hx.
      + unfold hundredths.
        rewrite (Qfloor_comp _ (x * 100 + (1 # 2))).
        * apply Qfloor_unique.
          -- rewrite Z.abs_eq by lia. lra.
          -- rewrite inject_Z_plus, Z.abs_eq by lia.
             change (inject_Z 1) with 1%Q. lra.
        * rewrite (Qabs_pos x) by exact Hx. reflexivity. }
  destruct Hsign as [Hs Hh].
  unfold toFixed2, cents_string. rewrite Hs, Hh.
  destruct (A <? 0)%Z; reflexivity.
Qed.

End Amounts.

Section AmountsSent.
Import Js Sdk Service Contract.

Lemma amount_value_order_body (input : InitiatePaymentInput) (s : string) :
  amount_value (createOrder (Service.order_body input s)) = Str s.
Proof.
  unfold Service.order_body.
  destruct (truthy (prop "resource_id" (init_data input))
            && truthy (prop "is_saved_token" (init_data input)));
    reflexivity.
Qed.

Lemma initiatePayment_calls (input : InitiatePaymentInput) (P : Processor) (n : number) :
  BigNumber_numeric (amount input) = Return n ->
  snd (run (Service.initiatePayment input) P)
  = [createOrder (Service.order_body input (toFixed2 n))].
Proof.
  intros Hn.
  unfold Service.initiatePayment. unfold_eff.
  rewrite Hn. cbn [app].
  destruct (P [] _) as [e|order]; [reflexivity|].
  destruct (member "id" order); [|reflexivity].
  destruct (getStatus order); reflexivity.
Qed.

Lemma legacy_initiatePayment_calls (input : InitiatePaymentInput) (P : Processor) :
  snd (run (Rev1.initiatePayment input) P)
  = [createOrder (Rev1.order_body input (toFixed2 (div100 (amount input))))]
  /\ snd (run (Rev0.initiatePayment input) P)
  = [createOrder (Rev1.order_body input (toFixed2 (div100 (amount input))))].
Proof.
  split;
    unfold Rev1.initiatePayment, Rev0.initiatePayment; unfold_eff; cbn [app];
    (destruct (P [] _) as [e|order]; [reflexivity|]);
    (destruct (member "id" order); [|reflexivity]);
    destruct (getStatus order); reflexivity.
Qed.

Lemma refundPayment_calls (data : value) (n : number) (code : value) (P : Processor) :
  truthy (getCaptureId data) = true ->
  number_truthy n = true ->
  upper (getCurrencyCode data) = Return code ->
  snd (run (Service.refundPayment {| refund_data := data; refund_amount := Some n |}) P)
  = [refundCapturedPayment (getCaptureId data)
       (Obj [("amount", Obj [("currencyCode", code);
                             ("value", Str (toFixed2 n))])])].
Proof.
  intros Hid Hn Hcode.
  unfold Service.refundPayment, Service.refund_body. unfold_eff.
  cbn [refund_data refund_amount]. rewrite Hid, Hn, Hcode. cbn [negb].
  assert (Hb : BigNumber_numeric n = Return n) by (destruct n; [discriminate Hn|reflexivity..]).
  rewrite Hb. cbn [app].
  destruct (P [] _); reflexivity.
Qed.

(** C1, as the current revision has it: an integer amount [A] handed to
    [initiatePayment], or to [refundPayment] as a non-zero amount, reaches
    the processor as [A] itself printed with exactly two fraction digits,
    not as [A / 100]; parsing that string gives [A] back.  The division by
    100, with the string parsing back to [A / 100], is what the two earlier
    revisions send.  The bound keeps [A] and [A / 100] in the range where a
    double prints the same digits as the exact number. *)
Theorem C1_amount_rendering (A : Z) (HA : (Z.abs A < 2 ^ 52)%Z) :
  (forall input P,
      amount input = Fin (inject_Z A) ->
      map amount_value (snd (run (Service.initiatePayment input) P))
      = [Str (units_string A)])
  /\ (forall data code P,
         A <> 0%Z ->
         truthy (getCaptureId data) = true ->
         upper (getCurrencyCode data) = Return code ->
         map amount_value
           (snd (run (Service.refundPayment
                        {| refund_data := data;
                           refund_amount := Some (Fin (inject_Z A)) |}) P))
         = [Str (units_string A)])
  /\ num_eq (parseFloat (units_string A)) (Fin (inject_Z A))
  /\ (forall input P,
         amount input = Fin (inject_Z A) ->
         map amount_value (snd (run (Rev1.initiatePayment input) P))
         = [Str (cents_string A)]
         /\ map amount_value (snd (run (Rev0.initiatePayment input) P))
            = [Str (cents_string A)])
  /\ String.length (dec2 (Z.abs A mod 100)) = 2%nat
  /\ num_eq (parseFloat (cents_string A)) (Fin (inject_Z A / 100)).
Proof.
  split; [|split; [|split; [|split; [|split]]]].
  - intros input P Hamount.
    rewrite (initiatePayment_calls input P (Fin (inject_Z A)))
      by (rewrite Hamount; reflexivity).
    cbn [map]. rewrite amount_value_order_body, toFixed2_units. reflexivity.
  - intros data code P Hnz Hid Hcode.
    rewrite (refundPayment_calls data (Fin (inject_Z A)) code P Hid); [| |exact Hcode].
    + cbn [map]. rewrite toFixed2_units. reflexivity.
    + cbn [number_truthy].
      destruct (Qeq_bool (inject_Z A) 0) eqn:E; [|reflexivity].
      apply Qeq_bool_eq in E. unfold Qeq in E. cbn -[Z.mul] in E. lia.
  - apply parseFloat_units.
  - intros input P Hamount.
    destruct (legacy_initiatePayment_calls input P) as [H1 H0].
    rewrite H1, H0, Hamount, toFixed2_cents. split; reflexivity.
  - apply cents_two_digits.
  - apply parseFloat_cents.
Qed.

Lemma C1_amount_rendering_witness :
  (Z.abs 100 < 2 ^ 52)%Z
  /\ map amount_value
    (snd (run (Service.initiatePayment
                 {| currency_code := "usd"; amount := Fin (inject_Z 100);
                    init_data := Obj [("session_id", Str "sess_1")] |})
            (answer completed_order)))
  = [Str "100.00"]
  /\ map amount_value
       (snd (run (Rev1.initiatePayment
                    {| currency_code := "usd"; amount := Fin (inject_Z 100);
                       init_data := Obj [("session_id", Str "sess_1")] |})
               (answer completed_order)))
     = [Str "1.00"].
Proof.
  assert (HA : (Z.abs 100 < 2 ^ 52)%Z) by reflexivity.
  split; [exact HA|].
  destruct (C1_amount_rendering 100 HA) as (Hcur & _ & _ & Hold & _).
  split.
  - apply Hcur. reflexivity.
  - apply Hold. reflexivity.
Defined.

(** C1 as stated fails on the current revision: the amount 350 is sent as
    "350.00", not as "3.50". *)
Lemma C1_counterexample :
  map amount_value
    (snd (run (Service.initiatePayment
                 {| currency_code := "usd"; amount := Fin (inject_Z 350);
                    init_data := Obj [("session_id", Str "sess_1")] |})
            (answer completed_order)))
  = [Str "350.00"]
  /\ map amount_value
       (snd (run (Service.initiatePayment
                    {| currency_code := "usd"; amount := Fin (inject_Z 350);
                       init_data := Obj [("session_id", Str "sess_1")] |})
               (answer completed_order)))
     <> [Str "3.50"].
Proof.
  split; [vm_compute; reflexivity|].
  vm_compute. discriminate.
Qed.

End AmountsSent.

(** ** Webhook events *)

Section Webhooks.
Import Js Sdk Service Contract.

Lemma event_type_not_nullish (payload : value) (s : string) :
  prop "event_type" payload = Str s -> nullish payload = false.
Proof. destruct payload; cbn; intros H; try discriminate H; reflexivity. Qed.

Lemma unrecognized (event_type : value) :
  recognized event_type = false ->
  is_str "PAYMENT.CAPTURE.COMPLETED" event_type = false
  /\ is_str "PAYMENT.CAPTURE.DENIED" event_type = false
  /\ is_str "PAYMENT.CAPTURE.DECLINED" event_type = false
  /\ is_str "CHECKOUT.ORDER.APPROVED" event_type = false
  /\ is_str "PAYMENT.CAPTURE.REFUNDED" event_type = false.
Proof.
  unfold recognized, event_types. cbn [existsb].
  rewrite !orb_false_iff. tauto.
Qed.

Lemma parse_12_34 :
  num_eq (parseFloat "12.34") (Fin (1234 # 100))
  /\ num_eq (times100 (parseFloat "12.34")) (Fin (inject_Z 1234)).
Proof. split; vm_compute; reflexivity. Qed.

(** C2, as the current revision has it: a [PAYMENT.CAPTURE.COMPLETED] event
    whose resource carries [custom_id] "sess_1" and the amount value "12.34"
    maps to SUCCESSFUL with session id "sess_1" and the amount 12.34 as
    parsed, not 1234; the two earlier revisions multiply by 100 and give
    1234 (the oldest reads the event from [webhookData.data]).  An event
    with an unrecognized [event_type] maps to NOT_SUPPORTED with amount 0
    and an empty session id in every revision. *)
Theorem C2_webhook_mapping :
  (forall payload resource,
      prop "event_type" payload = Str "PAYMENT.CAPTURE.COMPLETED" ->
      prop "resource" payload = resource ->
      prop "custom_id" resource = Str "sess_1" ->
      path [K "amount"; K "value"] resource = Str "12.34" ->
      Service.getWebhookActionAndData payload
      = Return (mk_webhook SUCCESSFUL (Str "sess_1") (parseFloat "12.34"))
      /\ Rev1.getWebhookActionAndData payload
         = Return (mk_webhook SUCCESSFUL (Str "sess_1")
                     (times100 (parseFloat "12.34")))
      /\ Rev0.getWebhookActionAndData (Obj [("data", payload)])
         = Return (mk_webhook SUCCESSFUL (Str "sess_1")
                     (times100 (parseFloat "12.34"))))
  /\ num_eq (parseFloat "12.34") (Fin (1234 # 100))
  /\ num_eq (times100 (parseFloat "12.34")) (Fin (inject_Z 1234))
  /\ (forall payload,
         nullish payload = false ->
         recognized (prop "event_type" payload) = false ->
         Service.getWebhookActionAndData payload
         = Return (mk_webhook NOT_SUPPORTED (Str "") (Fin 0))
         /\ Rev1.getWebhookActionAndData payload
            = Return (mk_webhook NOT_SUPPORTED (Str "") (Fin 0))
         /\ Rev0.getWebhookActionAndData (Obj [("data", payload)])
            = Return (mk_webhook NOT_SUPPORTED (Str "") (Fin 0))).
Proof.
  split; [|split; [apply parse_12_34|split; [apply parse_12_34|]]].
  - intros payload resource Hty Hres Hid Hval.
    pose proof (event_type_not_nullish _ _ Hty) as Hn.
    unfold Service.getWebhookActionAndData, Rev1.getWebhookActionAndData,
      Rev0.getWebhookActionAndData, Service.getAmount, Rev1.getAmount,
      Rev0.getAmount, member, destructure.
    change (prop "data" (Obj [("data", payload)])) with payload.
    cbn [nullish]. rewrite Hn, Hty, Hres, Hval, Hid.
    repeat split.
  - intros payload Hn Hty.
    destruct (unrecognized _ Hty) as (H1 & H2 & H3 & H4 & H5).
    unfold Service.getWebhookActionAndData, Rev1.getWebhookActionAndData,
      Rev0.getWebhookActionAndData, member, destructure.
    change (prop "data" (Obj [("data", payload)])) with payload.
    cbn [nullish]. rewrite Hn, H1, H2, H3, H4, H5.
    repeat split.
Qed.

Lemma C2_webhook_mapping_witness :
  Service.getWebhookActionAndData capture_completed_event
  = Return (mk_webhook SUCCESSFUL (Str "sess_1") (parseFloat "12.34"))
  /\ Rev1.getWebhookActionAndData capture_completed_event
     = Return (mk_webhook SUCCESSFUL (Str "sess_1")
                 (times100 (parseFloat "12.34")))
  /\ Service.getWebhookActionAndData
       (Obj [("event_type", Str "BILLING.PLAN.CREATED")])
     = Return (mk_webhook NOT_SUPPORTED (Str "") (Fin 0)).
Proof.
  destruct C2_webhook_mapping as (Hdone & _ & _ & Hother).
  destruct (Hdone capture_completed_event
              (prop "resource" capture_completed_event)
              eq_refl eq_refl eq_refl eq_refl) as (Hcur & Hold & _).
  destruct (Hother (Obj [("event_type", Str "BILLING.PLAN.CREATED")])
              eq_refl eq_refl) as (Hns & _).
  split; [exact Hcur|split; [exact Hold|exact Hns]].
Defined.

(** C2 as stated fails on the current revision: the amount reported for
    the value "12.34" is 12.34, not 1234. *)
Lemma C2_counterexample :
  exists r,
    Service.getWebhookActionAndData capture_completed_event = Return r
    /\ action r = SUCCESSFUL
    /\ session_id r = Str "sess_1"
    /\ num_eq (webhook_amount r) (Fin (1234 # 100))
    /\ ~ num_eq (webhook_amount r) (Fin (inject_Z 1234)).
Proof.
  eexists. split; [reflexivity|].
  split; [reflexivity|]. split; [reflexivity|].
  split; [vm_compute; reflexivity|].
  vm_compute. discriminate.
Qed.

End Webhooks.

(** ** Capture-id lookup and status mapping *)

Section Lookup.
Import Js Sdk Service Contract.

(** C3, as the code has it: [getCaptureId] returns the first of the flat
    [capture_id], the camelCase nested id and the snake_case nested id that
    passes the truthiness test -- so a flat field that is defined but
    empty is passed over -- and the fallback path when none does.  When
    there is no usable flat id and the camelCase id is usable, the camelCase
    id is returned, whatever the snake_case path holds. *)
Theorem C3_capture_id_precedence :
  (forall result,
      getCaptureId result
      = first_truthy [path flat_id result; path camel_id result;
                      path snake_id result]
          (path fallback_id result))
  /\ (forall result,
         truthy (path flat_id result) = false ->
         truthy (path camel_id result) = true ->
         truthy (path snake_id result) = true ->
         getCaptureId result = path camel_id result).
Proof.
  assert (Hchain : forall result,
             getCaptureId result
             = first_truthy [path flat_id result; path camel_id result;
                             path snake_id result]
                 (path fallback_id result)).
  { intros result. unfold getCaptureId, first_truthy.
    change (path flat_id result) with (prop "capture_id" result).
    fold (path camel_id result). fold (path snake_id result).
    fold (path fallback_id result).
    reflexivity. }
  split; [exact Hchain|].
  intros result Hflat Hcamel _. rewrite Hchain.
  cbn [first_truthy]. rewrite Hflat, Hcamel. reflexivity.
Qed.

Lemma C3_capture_id_precedence_witness :
  getCaptureId completed_order = Str "CAP-CAMEL".
Proof.
  exact (proj2 C3_capture_id_precedence completed_order eq_refl eq_refl eq_refl).
Defined.

(** C3 as stated fails where the flat field is defined but empty: the
    nested camelCase id is returned instead of the flat field. *)
Lemma C3_counterexample :
  let result :=
    Obj [("capture_id", Str "");
         ("purchaseUnits",
          Arr [Obj [("payments",
                     Obj [("captures", Arr [Obj [("id", Str "CAP-1")]])])]])] in
  prop "capture_id" result <> Undefined
  /\ getCaptureId result = Str "CAP-1"
  /\ getCaptureId result <> prop "capture_id" result.
Proof.
  cbv zeta. split; [|split]; vm_compute; [discriminate|reflexivity|discriminate].
Qed.

(** The oldest revision has no camelCase path in its lookup. *)
Lemma Rev0_capture_id_snake_only :
  Rev0.refund_capture_id completed_order = Str "CAP-SNAKE".
Proof. reflexivity. Qed.

(** C4: on every order object [getStatus] returns, with the order as data,
    the status the table gives for the order's [status]; a status outside
    the table, string or not, gives pending. *)
Theorem C4_status_mapping (paypalOrder : value) :
  nullish paypalOrder = false ->
  getStatus paypalOrder
  = Return (mk_status (table_status (prop "status" paypalOrder)) paypalOrder)
  /\ table_status (Str "CREATED") = PENDING
  /\ table_status (Str "SAVED") = PENDING
  /\ table_status (Str "APPROVED") = PENDING
  /\ table_status (Str "PAYER_ACTION_REQUIRED") = REQUIRES_MORE
  /\ table_status (Str "COMPLETED") = CAPTURED
  /\ table_status (Str "VOIDED") = CANCELED
  /\ (forall status,
         existsb (fun entry => is_str (fst entry) status) status_table = false ->
         table_status status = PENDING).
Proof.
  intros Hn. split; [|repeat split].
  - unfold getStatus, member. rewrite Hn.
    destruct (prop "status" paypalOrder) as [| |b|n|s|l|fs]; try reflexivity.
    unfold table_status, status_table, is_str. cbn [find fst snd].
    rewrite !(String.eqb_sym _ s).
    repeat match goal with
           | |- context [String.eqb s ?k] => destruct (String.eqb s k)
           end; reflexivity.
  - intros status Hout. destruct status as [| |b|n|s|l|fs]; try reflexivity.
    unfold table_status, status_table in *.
    cbn [existsb find fst snd is_str] in *.
    rewrite !(String.eqb_sym _ s).
    apply orb_false_iff in Hout; destruct Hout as (H1 & Hout).
    apply orb_false_iff in Hout; destruct Hout as (H2 & Hout).
    apply orb_false_iff in Hout; destruct Hout as (H3 & Hout).
    apply orb_false_iff in Hout; destruct Hout as (H4 & Hout).
    apply orb_false_iff in Hout; destruct Hout as (H5 & Hout).
    apply orb_false_iff in Hout; destruct Hout as (H6 & _).
    rewrite H1, H2, H3, H4, H5, H6. reflexivity.
Qed.

Lemma C4_status_mapping_witness :
  getStatus completed_order = Return (mk_status CAPTURED completed_order).
Proof.
  exact (proj1 (C4_status_mapping completed_order eq_refl)).
Defined.

End Lookup.

(** ** Calls to the processor and their failures *)

Section Calls.
Import Js Sdk Service Contract.

Lemma error_text_message (e : thrown) :
  message e <> "" -> error_text e = message e.
Proof.
  intros H. unfold error_text.
  destruct (String.eqb_spec (message e) ""); [contradiction|reflexivity].
Qed.

Lemma truthy_id_data (data : value) :
  truthy (prop "id" data) = true -> or_else data (Obj []) = data.
Proof.
  destruct data; cbn; try discriminate. reflexivity.
Qed.

(** C5, as the code has it: when the capture-order call fails with status
    code 422, [authorizePayment] returns what [getPaymentStatus] returns
    for the same input; a failure with any other status code, 409
    included, or with none is thrown as an authorization error that wraps
    the upstream message. *)
Theorem C5_authorize_fallback (input : PaymentInput) (P : Processor) (e : js_error) :
  truthy (prop "id" (in_data input)) = true ->
  P [] (captureOrder (prop "id" (in_data input))) = inl e ->
  (err_statusCode e = Some 422%Z ->
   authorizePayment input P []
   = getPaymentStatus input P [captureOrder (prop "id" (in_data input))])
  /\ (err_statusCode e <> Some 422%Z ->
      authorizePayment input P []
      = (Throw (MedusaError PAYMENT_AUTHORIZATION_ERROR
                  ("PayPal authorizePayment failed: " ++ error_text (Raised e))),
         [captureOrder (prop "id" (in_data input))]))
  /\ (err_message e <> "" -> error_text (Raised e) = err_message e).
Proof.
  intros Hid Hfail.
  assert (Hrun : authorizePayment input P []
                 = (if status_is 422 (Raised e) then getPaymentStatus input
                    else throw (MedusaError PAYMENT_AUTHORIZATION_ERROR
                                  ("PayPal authorizePayment failed: "
                                   ++ error_text (Raised e))))
                     P [captureOrder (prop "id" (in_data input))]).
  { unfold authorizePayment. unfold_eff.
    rewrite Hid. cbn [negb]. rewrite Hfail. reflexivity. }
  rewrite Hrun. unfold status_is. cbn [statusCode].
  split; [|split].
  - intros Hc. rewrite Hc. reflexivity.
  - intros Hc. destruct (err_statusCode e) as [c|]; [|reflexivity].
    destruct (Z.eqb_spec c 422); [subst; congruence|reflexivity].
  - intros Hm. apply (error_text_message (Raised e)). exact Hm.
Qed.

Lemma C5_authorize_fallback_witness :
  run (authorizePayment {| in_data := Obj [("id", Str "O-1")]; in_context := Undefined |})
    (capture_refused 422 completed_order)
  = (Return (mk_status CAPTURED
               (Obj (set_field "currency_code" (Str "USD")
                       (set_field "capture_id" (Str "CAP-CAMEL")
                          (spread completed_order))))),
     [captureOrder (Str "O-1"); getOrder (Str "O-1")]).
Proof.
  unfold run.
  rewrite (proj1 (C5_authorize_fallback
                    {| in_data := Obj [("id", Str "O-1")]; in_context := Undefined |}
                    (capture_refused 422 completed_order)
                    (api_error 422 "ORDER_ALREADY_CAPTURED") eq_refl eq_refl)
             eq_refl).
  reflexivity.
Defined.

(** C5 as stated fails for a 409 conflict: the error is thrown, although
    [getPaymentStatus] on the same input returns the captured order. *)
Lemma C5_counterexample :
  let input := {| in_data := Obj [("id", Str "O-1")]; in_context := Undefined |} in
  run (authorizePayment input) (capture_refused 409 completed_order)
  = (Throw (MedusaError PAYMENT_AUTHORIZATION_ERROR
              "PayPal authorizePayment failed: ORDER_ALREADY_CAPTURED"),
     [captureOrder (Str "O-1")])
  /\ fst (run (getPaymentStatus input) (capture_refused 409 completed_order))
     = Return (mk_status CAPTURED
                 (Obj (set_field "currency_code" (Str "USD")
                         (set_field "capture_id" (Str "CAP-CAMEL")
                            (spread completed_order))))).
Proof. cbv zeta. split; reflexivity. Qed.

(** C6: when the lookup finds no usable capture id, [refundPayment] throws
    the invalid-data error, whatever the amount, and sends nothing to the
    processor. *)
Theorem C6_refund_without_capture_id (input : RefundPaymentInput) (P : Processor) :
  truthy (getCaptureId (refund_data input)) = false ->
  run (refundPayment input) P
  = (Throw (MedusaError INVALID_DATA "No capture ID found for refund"), []).
Proof.
  intros Hid. unfold run, refundPayment. rewrite Hid. reflexivity.
Qed.

Lemma C6_refund_without_capture_id_witness :
  run (refundPayment {| refund_data := Obj [("id", Str "O-1")];
                        refund_amount := Some (Fin (inject_Z 350)) |})
    (answer completed_order)
  = (Throw (MedusaError INVALID_DATA "No capture ID found for refund"), [])
  /\ run (refundPayment {| refund_data := Obj [("id", Str "O-1")];
                           refund_amount := None |})
       (answer completed_order)
     = (Throw (MedusaError INVALID_DATA "No capture ID found for refund"), []).
Proof.
  split; apply C6_refund_without_capture_id; reflexivity.
Defined.

(** C7, as the code has it: without an order id in the data
    [getPaymentStatus] answers pending and sends nothing to the processor;
    the data it returns is the input data unchanged when the input carries
    data, and the empty object when the input carries none. *)
Theorem C7_status_without_order_id (input : PaymentInput) (P : Processor) :
  truthy (prop "id" (in_data input)) = false ->
  exists r,
    run (getPaymentStatus input) P = (Return r, [])
    /\ status r = PENDING
    /\ (truthy (in_data input) = true -> data r = in_data input)
    /\ (truthy (in_data input) = false -> data r = Obj []).
Proof.
  intros Hid. unfold run, getPaymentStatus. rewrite Hid. cbn [negb].
  eexists. split; [reflexivity|]. cbn [status data].
  unfold or_else. destruct (truthy (in_data input)).
  - repeat split. discriminate.
  - repeat split. discriminate.
Qed.

Lemma C7_status_without_order_id_witness :
  run (getPaymentStatus {| in_data := Obj [("session_id", Str "sess_1")];
                           in_context := Undefined |})
    (answer completed_order)
  = (Return (mk_status PENDING (Obj [("session_id", Str "sess_1")])), []).
Proof.
  destruct (C7_status_without_order_id
              {| in_data := Obj [("session_id", Str "sess_1")];
                 in_context := Undefined |}
              (answer completed_order) eq_refl) as (r & Hrun & Hst & Hdata & _).
  rewrite Hrun. destruct r as [st d]. cbn in Hst, Hdata.
  rewrite Hst, (Hdata eq_refl). reflexivity.
Defined.

(** C7 as stated fails for an input that carries no data: there is no
    order id, yet what comes back is the empty object, not the input's
    data. *)
Lemma C7_counterexample :
  let input := {| in_data := Undefined; in_context := Undefined |} in
  truthy (prop "id" (in_data input)) = false
  /\ run (getPaymentStatus input) (answer completed_order)
     = (Return (mk_status PENDING (Obj [])), [])
  /\ Obj [] <> in_data input.
Proof.
  cbv zeta. split; [reflexivity|]. split; [reflexivity|]. discriminate.
Qed.

(** C8: when the order fetch itself fails, [getPaymentStatus] returns the
    error status with the input data; it does not throw. *)
Theorem C8_status_fetch_failure (input : PaymentInput) (P : Processor) (e : js_error) :
  truthy (prop "id" (in_data input)) = true ->
  P [] (getOrder (prop "id" (in_data input))) = inl e ->
  run (getPaymentStatus input) P
  = (Return (mk_status ERROR (in_data input)),
     [getOrder (prop "id" (in_data input))]).
Proof.
  intros Hid Hfail.
  unfold getPaymentStatus. unfold_eff.
  rewrite Hid. cbn [negb]. rewrite Hfail.
  rewrite (truthy_id_data _ Hid). reflexivity.
Qed.

Lemma C8_status_fetch_failure_witness :
  run (getPaymentStatus {| in_data := Obj [("id", Str "O-1")]; in_context := Undefined |})
    (reject (api_error 500 "INTERNAL_SERVER_ERROR"))
  = (Return (mk_status ERROR (Obj [("id", Str "O-1")])), [getOrder (Str "O-1")]).
Proof.
  apply (C8_status_fetch_failure
           {| in_data := Obj [("id", Str "O-1")]; in_context := Undefined |}
           (reject (api_error 500 "INTERNAL_SERVER_ERROR"))
           (api_error 500 "INTERNAL_SERVER_ERROR")); reflexivity.
Defined.

(** C9: when the token listing fails with status code 404,
    [listPaymentMethods] returns the empty list; any other failure is
    thrown as an invalid-data error that wraps the upstream message. *)
Theorem C9_list_failures (context : value) (P : Processor) (e : js_error) :
  truthy (accountHolderId context) = true ->
  P [] (listCustomerPaymentTokens (accountHolderId context) 100) = inl e ->
  (err_statusCode e = Some 404%Z ->
   run (listPaymentMethods context) P
   = (Return [], [listCustomerPaymentTokens (accountHolderId context) 100]))
  /\ (err_statusCode e <> Some 404%Z ->
      run (listPaymentMethods context) P
      = (Throw (MedusaError INVALID_DATA
                  ("PayPal listPaymentMethods failed: " ++ error_text (Raised e))),
         [listCustomerPaymentTokens (accountHolderId context) 100]))
  /\ (err_message e <> "" -> error_text (Raised e) = err_message e).
Proof.
  intros Hid Hfail.
  unfold listPaymentMethods. unfold_eff.
  rewrite Hid. cbn [negb]. rewrite Hfail.
  unfold status_is. cbn [statusCode app].
  split; [|split].
  - intros Hc. rewrite Hc. reflexivity.
  - intros Hc. destruct (err_statusCode e) as [c|]; [|reflexivity].
    destruct (Z.eqb_spec c 404); [subst; congruence|reflexivity].
  - intros Hm. apply (error_text_message (Raised e)). exact Hm.
Qed.

Lemma C9_list_failures_witness :
  run (listPaymentMethods holder_context) (reject (api_error 404 "NOT_FOUND"))
  = (Return [], [listCustomerPaymentTokens (Str "paypal_cus_1") 100])
  /\ run (listPaymentMethods holder_context) (reject (api_error 500 "BOOM"))
     = (Throw (MedusaError INVALID_DATA "PayPal listPaymentMethods failed: BOOM"),
        [listCustomerPaymentTokens (Str "paypal_cus_1") 100]).
Proof.
  split.
  - apply (proj1 (C9_list_failures holder_context
                    (reject (api_error 404 "NOT_FOUND"))
                    (api_error 404 "NOT_FOUND") eq_refl eq_refl)).
    reflexivity.
  - apply (proj1 (proj2 (C9_list_failures holder_context
                           (reject (api_error 500 "BOOM"))
                           (api_error 500 "BOOM") eq_refl eq_refl))).
    discriminate.
Defined.

(** C10: without an account-holder id in the context [listPaymentMethods]
    returns the empty list and sends nothing to the processor, where
    [savePaymentMethod] throws the invalid-data error, also before any
    call. *)
Theorem C10_missing_account_holder (context : value) (P : Processor) :
  truthy (accountHolderId context) = false ->
  run (listPaymentMethods context) P = (Return [], [])
  /\ forall data,
      run (savePaymentMethod {| method_context := context;
                                method_input_data := data |}) P
      = (Throw (MedusaError INVALID_DATA
                  "Missing account holder ID for saving payment method"), []).
Proof.
  intros Hid. split.
  - unfold run, listPaymentMethods. rewrite Hid. reflexivity.
  - intros data. unfold run, savePaymentMethod.
    cbn [method_context]. rewrite Hid. reflexivity.
Qed.

Lemma C10_missing_account_holder_witness :
  run (listPaymentMethods (Obj [("customer", Obj [("id", Str "cus_1")])]))
    (answer completed_order)
  = (Return [], []).
Proof.
  apply (proj1 (C10_missing_account_holder
                  (Obj [("customer", Obj [("id", Str "cus_1")])])
                  (answer completed_order) eq_refl)).
Defined.

End Calls.

(** ** Orders: status, capture and what is stored for refunds *)

Section Orders.
Import Js Sdk Service Contract Provider Shapes.

Lemma lookup_set_field_same (k : string) (v : value) (fs : list (string * value)) :
  lookup k (set_field k v fs) = v.
Proof.
  induction fs as [|[k' v'] fs IH]; cbn [set_field lookup].
  - rewrite String.eqb_refl. reflexivity.
  - destruct (String.eqb k k') eqn:E; cbn [lookup].
    + rewrite String.eqb_refl. reflexivity.
    + rewrite E. exact IH.
Qed.

Lemma lookup_set_field_other (k k' : string) (v : value) (fs : list (string * value)) :
  k <> k' -> lookup k (set_field k' v fs) = lookup k fs.
Proof.
  intros Hk.
  assert (Hkk : String.eqb k k' = false) by (apply String.eqb_neq; exact Hk).
  induction fs as [|[k0 v0] fs IH]; cbn [set_field lookup].
  - rewrite Hkk. reflexivity.
  - destruct (String.eqb k' k0) eqn:E; cbn [lookup].
    + apply String.eqb_eq in E. subst k0. rewrite Hkk. reflexivity.
    + destruct (String.eqb k k0); [reflexivity|exact IH].
Qed.

Lemma table_status_not_error (status : value) : table_status status <> ERROR.
Proof.
  destruct status as [| |b|n|s|l|fs]; try discriminate.
  unfold table_status, status_table. cbn [find fst snd].
  repeat match goal with
         | |- context [String.eqb ?k s] => destruct (String.eqb k s)
         end; discriminate.
Qed.

Lemma getStatus_object (paypalOrder : value) :
  nullish paypalOrder = false ->
  getStatus paypalOrder
  = Return (mk_status (table_status (prop "status" paypalOrder)) paypalOrder).
Proof.
  intros Hn. unfold getStatus, member. rewrite Hn.
  destruct (prop "status" paypalOrder) as [| |b|n|s|l|fs]; try reflexivity.
  unfold table_status, status_table, is_str. cbn [find fst snd].
  rewrite !(String.eqb_sym _ s).
  repeat match goal with
         | |- context [String.eqb s ?k] => destruct (String.eqb s k)
         end; reflexivity.
Qed.

Lemma getStatus_nullish (paypalOrder : value) :
  nullish paypalOrder = true ->
  exists msg, getStatus paypalOrder = Throw (TypeError msg).
Proof.
  intros Hn. unfold getStatus, member. rewrite Hn. eexists. reflexivity.
Qed.

Lemma with_capture_object (result : value) :
  nullish result = false ->
  with_capture result
  = Return (mk_status (table_status (prop "status" result)) (order_data result)).
Proof.
  intros Hn. unfold with_capture. rewrite (getStatus_object _ Hn). reflexivity.
Qed.

Lemma with_capture_nullish (result : value) :
  nullish result = true -> exists msg, with_capture result = Throw (TypeError msg).
Proof.
  intros Hn. unfold with_capture.
  destruct (getStatus_nullish _ Hn) as [e He]. rewrite He. eexists. reflexivity.
Qed.

(** What [getPaymentStatus] does in full, by the processor's answer. *)
Lemma getPaymentStatus_run (input : PaymentInput) (P : Processor) (tr : list call) :
  getPaymentStatus input P tr
  = if truthy (prop "id" (in_data input)) then
      (Return
         (match P tr (getOrder (prop "id" (in_data input))) with
          | inr result =>
              if nullish result then mk_status ERROR (in_data input)
              else mk_status (table_status (prop "status" result)) (order_data result)
          | inl _ => mk_status ERROR (in_data input)
          end),
       (tr ++ [getOrder (prop "id" (in_data input))])%list)
    else (Return (mk_status PENDING (or_else (in_data input) (Obj []))), tr).
Proof.
  unfold getPaymentStatus.
  destruct (truthy (prop "id" (in_data input))) eqn:Hid; cbn [negb]; [|reflexivity].
  assert (Hdata : or_else (in_data input) (Obj []) = in_data input).
  { destruct (in_data input); cbn in Hid |- *; try discriminate. reflexivity. }
  unfold_eff. rewrite Hdata.
  destruct (P tr _) as [e|result]; [reflexivity|].
  destruct (nullish result) eqn:Hn.
  - destruct (with_capture_nullish _ Hn) as [e He]. rewrite He. reflexivity.
  - rewrite (with_capture_object _ Hn). reflexivity.
Qed.

(** X1: [getPaymentStatus] never throws, whatever the processor does, and
    it sends at most the one [getOrder] request. *)
Theorem getPaymentStatus_never_throws (input : PaymentInput) (P : Processor) :
  exists r,
    run (getPaymentStatus input) P
    = (Return r,
       if truthy (prop "id" (in_data input))
       then [getOrder (prop "id" (in_data input))] else []).
Proof.
  unfold run. rewrite getPaymentStatus_run.
  destruct (truthy (prop "id" (in_data input))); eexists; reflexivity.
Qed.

(** X2: [getPaymentStatus] reports the error status exactly when there was
    an order id and the fetch failed or brought back [null] or [undefined];
    an order the processor did return is never reported as an error. *)
Theorem getPaymentStatus_error_iff (input : PaymentInput) (P : Processor) (r : StatusResult) :
  fst (run (getPaymentStatus input) P) = Return r ->
  (status r = ERROR <->
   truthy (prop "id" (in_data input)) = true
   /\ unusable (P [] (getOrder (prop "id" (in_data input)))) = true).
Proof.
  unfold run. rewrite getPaymentStatus_run.
  destruct (truthy (prop "id" (in_data input))); cbn [fst].
  - destruct (P [] _) as [e|result]; cbn [unusable].
    + intros H. injection H as <-. cbn. tauto.
    + destruct (nullish result); intros H; injection H as <-; cbn [status].
      * tauto.
      * split; [intros H; elim (table_status_not_error _ H)|].
        intros [_ H]. discriminate H.
  - intros H. injection H as <-. cbn [status].
    split; [discriminate|]. intros [H _]. discriminate H.
Qed.

Lemma getPaymentStatus_error_iff_witness :
  status (mk_status ERROR (Obj [("id", Str "O-1")])) = ERROR <->
  truthy (prop "id" (Obj [("id", Str "O-1")])) = true
  /\ unusable (reject (api_error 500 "INTERNAL_SERVER_ERROR") []
                 (getOrder (prop "id" (Obj [("id", Str "O-1")])))) = true.
Proof.
  exact (getPaymentStatus_error_iff
           {| in_data := Obj [("id", Str "O-1")]; in_context := Undefined |}
           (reject (api_error 500 "INTERNAL_SERVER_ERROR"))
           (mk_status ERROR (Obj [("id", Str "O-1")])) eq_refl).
Defined.

Lemma getCurrencyCode_truthy (data : value) : truthy (getCurrencyCode data) = true.
Proof.
  unfold getCurrencyCode. cbv zeta.
  repeat match goal with
         | |- context [if truthy ?v then _ else _] =>
             let H := fresh "H" in destruct (truthy v) eqn:H; [exact H|]
         end.
  reflexivity.
Qed.

Lemma order_data_prop (k : string) (fs : list (string * value)) :
  k <> "capture_id" -> k <> "currency_code" ->
  prop k (order_data (Obj fs)) = prop k (Obj fs).
Proof.
  intros H1 H2. unfold order_data. cbn [prop spread].
  rewrite lookup_set_field_other by exact H2.
  apply lookup_set_field_other. exact H1.
Qed.

Lemma order_data_capture_id (fs : list (string * value)) :
  prop "capture_id" (order_data (Obj fs)) = getCaptureId (Obj fs).
Proof.
  unfold order_data. cbn [prop spread].
  rewrite lookup_set_field_other by discriminate.
  apply lookup_set_field_same.
Qed.

Lemma order_data_currency_code (fs : list (string * value)) :
  prop "currency_code" (order_data (Obj fs)) = getCurrencyCode (Obj fs).
Proof.
  unfold order_data. cbn [prop spread]. apply lookup_set_field_same.
Qed.

Lemma path_order_data (k : string) (ps : list step) (fs : list (string * value)) :
  k <> "capture_id" -> k <> "currency_code" ->
  path (K k :: ps) (order_data (Obj fs)) = path (K k :: ps) (Obj fs).
Proof.
  intros H1 H2. unfold path. cbn [fold_left access].
  rewrite order_data_prop by assumption. reflexivity.
Qed.

Lemma order_data_roundtrip (fs : list (string * value)) :
  getCaptureId (order_data (Obj fs)) = getCaptureId (Obj fs)
  /\ getCurrencyCode (order_data (Obj fs)) = getCurrencyCode (Obj fs)
  /\ (forall k, k <> "capture_id" -> k <> "currency_code" ->
                prop k (order_data (Obj fs)) = prop k (Obj fs)).
Proof.
  split; [|split].
  - unfold getCaptureId at 1.
    rewrite order_data_capture_id.
    rewrite !path_order_data by discriminate.
    unfold getCaptureId.
    destruct (truthy (prop "capture_id" (Obj fs))) eqn:H1; [rewrite H1; reflexivity|].
    destruct (truthy (path [K "purchaseUnits"; I0; K "payments"; K "captures"; I0; K "id"]
                        (Obj fs))) eqn:H2; [rewrite H2; reflexivity|].
    destruct (truthy (path [K "purchase_units"; I0; K "payments"; K "captures"; I0; K "id"]
                        (Obj fs))) eqn:H3; [rewrite H3; reflexivity|].
    destruct (truthy (path [K "payments"; K "captures"; I0; K "id"] (Obj fs)));
      reflexivity.
  - unfold getCurrencyCode at 1.
    rewrite order_data_currency_code, getCurrencyCode_truthy. reflexivity.
  - intros k H1 H2. apply order_data_prop; assumption.
Qed.

(** X3: when the processor returns the order, [getPaymentStatus] answers
    with the table's status after one request; the data it returns holds
    under [capture_id] and [currency_code] what [getCaptureId] and
    [getCurrencyCode] find in the order, keeps every other field of the
    order, and the two lookups find in it what they found in the order. *)
Theorem getPaymentStatus_order (input : PaymentInput) (P : Processor)
    (fs : list (string * value)) :
  truthy (prop "id" (in_data input)) = true ->
  P [] (getOrder (prop "id" (in_data input))) = inr (Obj fs) ->
  exists r,
    run (getPaymentStatus input) P
    = (Return r, [getOrder (prop "id" (in_data input))])
    /\ status r = table_status (prop "status" (Obj fs))
    /\ prop "capture_id" (data r) = getCaptureId (Obj fs)
    /\ prop "currency_code" (data r) = getCurrencyCode (Obj fs)
    /\ getCaptureId (data r) = getCaptureId (Obj fs)
    /\ getCurrencyCode (data r) = getCurrencyCode (Obj fs)
    /\ (forall k, k <> "capture_id" -> k <> "currency_code" ->
                  prop k (data r) = prop k (Obj fs)).
Proof.
  intros Hid Hok. unfold run. rewrite getPaymentStatus_run, Hid, Hok.
  cbn [nullish app]. eexists. split; [reflexivity|].
  cbn [status data]. split; [reflexivity|].
  split; [apply order_data_capture_id|].
  split; [apply order_data_currency_code|]. apply order_data_roundtrip.
Qed.

Lemma getPaymentStatus_order_witness :
  exists r,
    run (getPaymentStatus {| in_data := Obj [("id", Str "O-1")];
                             in_context := Undefined |})
      (answer completed_order)
    = (Return r, [getOrder (Str "O-1")])
    /\ status r = CAPTURED
    /\ prop "capture_id" (data r) = Str "CAP-CAMEL"
    /\ prop "currency_code" (data r) = Str "USD".
Proof.
  destruct (getPaymentStatus_order
              {| in_data := Obj [("id", Str "O-1")]; in_context := Undefined |}
              (answer completed_order) _ eq_refl eq_refl)
    as (r & Hrun & Hst & Hid & Hcur & _).
  exists r. split; [exact Hrun|]. split; [exact Hst|].
  split; [exact Hid|exact Hcur].
Defined.

End Orders.

(** ** Capture and refund *)

Section CaptureRefund.
Import Js Sdk Service Contract Provider Shapes.

(** What [authorizePayment] does in full, by the processor's answer. *)
Lemma authorizePayment_run (input : PaymentInput) (P : Processor) (tr : list call) :
  authorizePayment input P tr
  = if truthy (prop "id" (in_data input)) then
      let c := captureOrder (prop "id" (in_data input)) in
      match P tr c with
      | inr result =>
          (match with_capture result with
           | Return r => Return r
           | Throw e =>
               Throw (MedusaError PAYMENT_AUTHORIZATION_ERROR
                        ("PayPal authorizePayment failed: " ++ error_text e))
           end, (tr ++ [c])%list)
      | inl e =>
          if status_is 422 (Raised e) then getPaymentStatus input P (tr ++ [c])%list
          else (Throw (MedusaError PAYMENT_AUTHORIZATION_ERROR
                         ("PayPal authorizePayment failed: "
                          ++ error_text (Raised e))),
                (tr ++ [c])%list)
      end
    else (Throw (MedusaError INVALID_DATA
                   "No PayPal order ID found for authorizePayment"), tr).
Proof.
  unfold authorizePayment.
  destruct (truthy (prop "id" (in_data input))); cbn [negb]; [|reflexivity].
  unfold_eff. cbv zeta.
  destruct (P tr _) as [e|result];
    [destruct (status_is 422 (Raised e)); reflexivity|].
  destruct (nullish result) eqn:Hn.
  - destruct (with_capture_nullish _ Hn) as [msg He]. rewrite He. reflexivity.
  - rewrite (with_capture_object _ Hn). reflexivity.
Qed.

Lemma authorizePayment_capture_run (input : PaymentInput) (P : Processor)
    (fs : list (string * value)) :
  truthy (prop "id" (in_data input)) = true ->
  P [] (captureOrder (prop "id" (in_data input))) = inr (Obj fs) ->
  run (authorizePayment input) P
  = (Return (mk_status (table_status (prop "status" (Obj fs)))
               (order_data (Obj fs))),
     [captureOrder (prop "id" (in_data input))]).
Proof.
  intros Hid Hok. unfold run. rewrite authorizePayment_run, Hid. cbv zeta.
  rewrite Hok, with_capture_object by reflexivity. reflexivity.
Qed.

(** X4: when the capture succeeds, [authorizePayment] answers with the
    table's status after the one capture request, and the data it returns
    carries the capture id and currency found in the captured order, where
    the lookups find them again. *)
Theorem authorizePayment_captured (input : PaymentInput) (P : Processor)
    (fs : list (string * value)) :
  truthy (prop "id" (in_data input)) = true ->
  P [] (captureOrder (prop "id" (in_data input))) = inr (Obj fs) ->
  exists r,
    run (authorizePayment input) P
    = (Return r, [captureOrder (prop "id" (in_data input))])
    /\ status r = table_status (prop "status" (Obj fs))
    /\ prop "capture_id" (data r) = getCaptureId (Obj fs)
    /\ getCaptureId (data r) = getCaptureId (Obj fs)
    /\ getCurrencyCode (data r) = getCurrencyCode (Obj fs)
    /\ (forall k, k <> "capture_id" -> k <> "currency_code" ->
                  prop k (data r) = prop k (Obj fs)).
Proof.
  intros Hid Hok. rewrite (authorizePayment_capture_run input P fs Hid Hok).
  eexists. split; [reflexivity|].
  cbn [status data]. split; [reflexivity|].
  split; [apply order_data_capture_id|]. apply order_data_roundtrip.
Qed.

Lemma authorizePayment_captured_witness :
  exists r,
    run (authorizePayment {| in_data := Obj [("id", Str "O-1")];
                             in_context := Undefined |})
      (answer completed_order)
    = (Return r, [captureOrder (Str "O-1")])
    /\ status r = CAPTURED
    /\ prop "capture_id" (data r) = Str "CAP-CAMEL".
Proof.
  destruct (authorizePayment_captured
              {| in_data := Obj [("id", Str "O-1")]; in_context := Undefined |}
              (answer completed_order) _ eq_refl eq_refl)
    as (r & Hrun & Hst & Hid & _).
  exists r. split; [exact Hrun|]. split; [exact Hst|exact Hid].
Defined.

(** X5: the requests [authorizePayment] sends: none without an order id;
    otherwise the capture, followed by a [getOrder] exactly when the
    capture failed with status code 422. *)
Theorem authorizePayment_requests (input : PaymentInput) (P : Processor) :
  let id := prop "id" (in_data input) in
  snd (run (authorizePayment input) P)
  = if truthy id then
      match P [] (captureOrder id) with
      | inl e =>
          if status_is 422 (Raised e) then [captureOrder id; getOrder id]
          else [captureOrder id]
      | inr _ => [captureOrder id]
      end
    else [].
Proof.
  cbv zeta. unfold run. rewrite authorizePayment_run. cbv zeta.
  destruct (truthy (prop "id" (in_data input))) eqn:Hid; [|reflexivity].
  destruct (P [] _) as [e|result]; [|reflexivity].
  destruct (status_is 422 (Raised e)); [|reflexivity].
  rewrite getPaymentStatus_run, Hid. reflexivity.
Qed.

(** X6: after a capture refused with status code 422 [authorizePayment]
    never throws: it answers as [getPaymentStatus] does, with the error
    status and the input data when the follow-up fetch fails as well. *)
Theorem authorizePayment_conflict_returns (input : PaymentInput) (P : Processor)
    (e : js_error) :
  truthy (prop "id" (in_data input)) = true ->
  P [] (captureOrder (prop "id" (in_data input))) = inl e ->
  err_statusCode e = Some 422%Z ->
  exists r,
    fst (run (authorizePayment input) P) = Return r
    /\ (unusable (P [captureOrder (prop "id" (in_data input))]
                    (getOrder (prop "id" (in_data input)))) = true ->
        r = mk_status ERROR (in_data input)).
Proof.
  intros Hid Hfail Hcode. unfold run.
  rewrite authorizePayment_run, Hid. cbv zeta. rewrite Hfail.
  unfold status_is. cbn [statusCode]. rewrite Hcode. cbn [Z.eqb Pos.eqb].
  rewrite getPaymentStatus_run, Hid. cbn [fst app].
  eexists. split; [reflexivity|].
  destruct (P _ (getOrder _)) as [e'|result]; cbn [unusable]; [reflexivity|].
  intros Hn. rewrite Hn. reflexivity.
Qed.

Lemma authorizePayment_conflict_returns_witness :
  exists r,
    fst (run (authorizePayment {| in_data := Obj [("id", Str "O-1")];
                                  in_context := Undefined |})
           (reject (api_error 422 "ORDER_ALREADY_CAPTURED")))
    = Return r
    /\ r = mk_status ERROR (Obj [("id", Str "O-1")]).
Proof.
  destruct (authorizePayment_conflict_returns
              {| in_data := Obj [("id", Str "O-1")]; in_context := Undefined |}
              (reject (api_error 422 "ORDER_ALREADY_CAPTURED"))
              (api_error 422 "ORDER_ALREADY_CAPTURED") eq_refl eq_refl eq_refl)
    as (r & Hrun & Herr).
  exists r. split; [exact Hrun|]. apply Herr. reflexivity.
Defined.

(** What [refundPayment] does in full. *)
Lemma refundPayment_run (input : RefundPaymentInput) (P : Processor) (tr : list call) :
  refundPayment input P tr
  = let captureId := getCaptureId (refund_data input) in
    if truthy captureId then
      match Service.refund_body (refund_data input) (refund_amount input) with
      | Return body =>
          match P tr (refundCapturedPayment captureId body) with
          | inr result =>
              (Return result, (tr ++ [refundCapturedPayment captureId body])%list)
          | inl e =>
              (Throw (MedusaError PAYMENT_AUTHORIZATION_ERROR
                        ("PayPal refundPayment failed: " ++ error_text (Raised e))),
               (tr ++ [refundCapturedPayment captureId body])%list)
          end
      | Throw e =>
          (Throw (MedusaError PAYMENT_AUTHORIZATION_ERROR
                    ("PayPal refundPayment failed: " ++ error_text e)), tr)
      end
    else (Throw (MedusaError INVALID_DATA "No capture ID found for refund"), tr).
Proof.
  unfold refundPayment. cbv zeta.
  destruct (truthy (getCaptureId (refund_data input))); cbn [negb]; [|reflexivity].
  unfold_eff. destruct (Service.refund_body _ _) as [body|e]; [|reflexivity].
  destruct (P tr _); reflexivity.
Qed.

(** X7: a refund whose amount is left out, or is passed as the JavaScript
    number 0 or [NaN], is sent with an empty body, which the processor
    reads as a full refund of the capture; the processor's result is
    returned as the data.  (An amount is a JavaScript number here; a zero
    wrapped in a string or an object is not covered.) *)
Theorem refundPayment_full (input : RefundPaymentInput) (P : Processor) :
  truthy (getCaptureId (refund_data input)) = true ->
  amount_given (refund_amount input) = false ->
  let c := refundCapturedPayment (getCaptureId (refund_data input)) (Obj []) in
  snd (run (refundPayment input) P) = [c]
  /\ forall result, P [] c = inr result ->
                    fst (run (refundPayment input) P) = Return result.
Proof.
  intros Hid Hamount. cbv zeta. unfold run.
  rewrite refundPayment_run. cbv zeta. rewrite Hid.
  assert (Hbody : Service.refund_body (refund_data input) (refund_amount input)
                  = Return (Obj [])).
  { unfold Service.refund_body. destruct (refund_amount input) as [n|]; [|reflexivity].
    cbn in Hamount. rewrite Hamount. reflexivity. }
  rewrite Hbody. split.
  - destruct (P [] _); reflexivity.
  - intros result Hok. rewrite Hok. reflexivity.
Qed.

Lemma refundPayment_full_witness :
  snd (run (refundPayment {| refund_data := Obj [("capture_id", Str "CAP-1")];
                             refund_amount := Some (Fin 0) |})
         (answer (Obj [("status", Str "COMPLETED")])))
  = [refundCapturedPayment (Str "CAP-1") (Obj [])].
Proof.
  exact (proj1 (refundPayment_full
                  {| refund_data := Obj [("capture_id", Str "CAP-1")];
                     refund_amount := Some (Fin 0) |}
                  (answer (Obj [("status", Str "COMPLETED")])) eq_refl eq_refl)).
Defined.

Lemma refund_body_currency (data data' : value) (amount : option number) :
  getCurrencyCode data = getCurrencyCode data' ->
  Service.refund_body data amount = Service.refund_body data' amount.
Proof. intros H. unfold Service.refund_body. rewrite H. reflexivity. Qed.

(** X8: capture and refund compose: a refund made with the data that
    [authorizePayment] returned for a captured order runs exactly as a
    refund made with the captured order itself, for every amount: the same
    capture id is refunded, in the same currency. *)
Theorem refund_after_authorize (input : PaymentInput) (P : Processor)
    (fs : list (string * value)) :
  truthy (prop "id" (in_data input)) = true ->
  P [] (captureOrder (prop "id" (in_data input))) = inr (Obj fs) ->
  exists r,
    fst (run (authorizePayment input) P) = Return r
    /\ forall amount P',
        run (refundPayment {| refund_data := data r; refund_amount := amount |}) P'
        = run (refundPayment {| refund_data := Obj fs; refund_amount := amount |}) P'.
Proof.
  intros Hid Hok.
  rewrite (authorizePayment_capture_run input P fs Hid Hok).
  destruct (order_data_roundtrip fs) as (Hcid & Hcur & _).
  eexists. split; [reflexivity|].
  intros amount P'. unfold run. rewrite !refundPayment_run.
  cbn [refund_data refund_amount data]. cbv zeta.
  rewrite Hcid, (refund_body_currency (order_data (Obj fs)) (Obj fs) amount Hcur).
  reflexivity.
Qed.

Lemma refund_after_authorize_witness :
  exists r,
    fst (run (authorizePayment {| in_data := Obj [("id", Str "O-1")];
                                  in_context := Undefined |})
           (answer completed_order)) = Return r
    /\ snd (run (refundPayment {| refund_data := data r; refund_amount := None |})
              (answer (Obj [("status", Str "COMPLETED")])))
       = [refundCapturedPayment (Str "CAP-CAMEL") (Obj [])].
Proof.
  destruct (refund_after_authorize
              {| in_data := Obj [("id", Str "O-1")]; in_context := Undefined |}
              (answer completed_order) _ eq_refl eq_refl) as (r & Hrun & Hsame).
  exists r. split; [exact Hrun|]. rewrite Hsame. reflexivity.
Defined.

End CaptureRefund.

(** ** Creating orders, and what every method may throw *)

Section Containment.
Import Js Sdk Service Contract Provider Shapes.

(** What [initiatePayment] does in full. *)
Lemma initiatePayment_run (input : InitiatePaymentInput) (P : Processor) (tr : list call) :
  initiatePayment input P tr
  = match BigNumber_numeric (amount input) with
    | Return n =>
        let c := createOrder (Service.order_body input (toFixed2 n)) in
        (match P tr c with
         | inr order =>
             match member "id" order with
             | Return id =>
                 Return {| init_id := id;
                           init_status := table_status (prop "status" order);
                           init_result := order |}
             | Throw e =>
                 Throw (MedusaError PAYMENT_AUTHORIZATION_ERROR
                          ("PayPal initiatePayment failed: " ++ error_text e))
             end
         | inl e =>
             Throw (MedusaError PAYMENT_AUTHORIZATION_ERROR
                      ("PayPal initiatePayment failed: " ++ error_text (Raised e)))
         end, (tr ++ [c])%list)
    | Throw e =>
        (Throw (MedusaError PAYMENT_AUTHORIZATION_ERROR
                  ("PayPal initiatePayment failed: " ++ error_text e)), tr)
    end.
Proof.
  unfold initiatePayment. unfold_eff.
  destruct (BigNumber_numeric (amount input)) as [n|e]; [|reflexivity].
  cbv zeta. destruct (P tr _) as [e|order]; [reflexivity|].
  unfold member. destruct (nullish order) eqn:Hn; [reflexivity|].
  rewrite (getStatus_object _ Hn). reflexivity.
Qed.

(** X9: when the processor answers the order request with an order
    object, [initiatePayment] returns the order's id, the table's status
    for the order's status and the order itself as data. *)
Theorem initiatePayment_created (input : InitiatePaymentInput) (P : Processor)
    (n : number) (order : value) :
  BigNumber_numeric (amount input) = Return n ->
  P [] (createOrder (Service.order_body input (toFixed2 n))) = inr order ->
  nullish order = false ->
  fst (run (initiatePayment input) P)
  = Return {| init_id := prop "id" order;
              init_status := table_status (prop "status" order);
              init_result := order |}.
Proof.
  intros Hn Hok Hobj. unfold run. rewrite initiatePayment_run, Hn. cbv zeta.
  rewrite Hok. unfold member. rewrite Hobj. reflexivity.
Qed.

Lemma initiatePayment_created_witness :
  fst (run (initiatePayment {| currency_code := "eur"; amount := Fin 10;
                               init_data := Obj [] |})
         (answer (Obj [("id", Str "O-9"); ("status", Str "PAYER_ACTION_REQUIRED")])))
  = Return {| init_id := Str "O-9"; init_status := REQUIRES_MORE;
              init_result :=
                Obj [("id", Str "O-9"); ("status", Str "PAYER_ACTION_REQUIRED")] |}.
Proof.
  exact (initiatePayment_created
           {| currency_code := "eur"; amount := Fin 10; init_data := Obj [] |}
           (answer (Obj [("id", Str "O-9"); ("status", Str "PAYER_ACTION_REQUIRED")]))
           (Fin 10) _ eq_refl eq_refl eq_refl).
Defined.

(** X10: when the processor rejects the order request, [initiatePayment]
    throws the authorization error with the upstream message after that one
    request; an amount that is [NaN] fails with the same kind of error and
    the same prefix, whatever the host library's text is, before any
    request is sent. *)
Theorem initiatePayment_rejected (input : InitiatePaymentInput) (P : Processor) :
  (forall n e,
      BigNumber_numeric (amount input) = Return n ->
      P [] (createOrder (Service.order_body input (toFixed2 n))) = inl e ->
      run (initiatePayment input) P
      = (Throw (MedusaError PAYMENT_AUTHORIZATION_ERROR
                  ("PayPal initiatePayment failed: " ++ error_text (Raised e))),
         [createOrder (Service.order_body input (toFixed2 n))]))
  /\ (amount input = NaN ->
      exists text,
        run (initiatePayment input) P
        = (Throw (MedusaError PAYMENT_AUTHORIZATION_ERROR
                    ("PayPal initiatePayment failed: " ++ text)),
           [])).
Proof.
  split.
  - intros n e Hn Hfail. unfold run. rewrite initiatePayment_run, Hn. cbv zeta.
    rewrite Hfail. reflexivity.
  - intros Hnan. unfold run. rewrite initiatePayment_run, Hnan.
    eexists. reflexivity.
Qed.

Lemma initiatePayment_rejected_witness :
  run (initiatePayment {| currency_code := "eur"; amount := Fin 10;
                          init_data := Obj [] |})
    (reject (api_error 401 "INVALID_CLIENT"))
  = (Throw (MedusaError PAYMENT_AUTHORIZATION_ERROR
              "PayPal initiatePayment failed: INVALID_CLIENT"),
     [createOrder (Service.order_body
                     {| currency_code := "eur"; amount := Fin 10;
                        init_data := Obj [] |} "10.00")])
  /\ (exists text,
         run (initiatePayment {| currency_code := "eur"; amount := NaN;
                                 init_data := Obj [] |})
           (answer completed_order)
         = (Throw (MedusaError PAYMENT_AUTHORIZATION_ERROR
                     ("PayPal initiatePayment failed: " ++ text)),
            [])).
Proof.
  split.
  - exact (proj1 (initiatePayment_rejected
                    {| currency_code := "eur"; amount := Fin 10; init_data := Obj [] |}
                    (reject (api_error 401 "INVALID_CLIENT")))
             (Fin 10) (api_error 401 "INVALID_CLIENT") eq_refl eq_refl).
  - exact (proj2 (initiatePayment_rejected
                    {| currency_code := "eur"; amount := NaN; init_data := Obj [] |}
                    (answer completed_order)) eq_refl).
Defined.

(** The order request carries the capture intent and exactly one of
    [paymentSource] and [applicationContext]: the saved token when the data
    has both [resource_id] and [is_saved_token], the pay-now context
    otherwise. *)
Lemma order_body_source (input : InitiatePaymentInput) (s : string) :
  let body := Service.order_body input s in
  let saved := truthy (prop "resource_id" (init_data input))
               && truthy (prop "is_saved_token" (init_data input)) in
  prop "intent" body = Str "CAPTURE"
  /\ prop "paymentSource" body
     = (if saved
        then Obj [("token", Obj [("id", prop "resource_id" (init_data input));
                                 ("type", Str "BILLING_AGREEMENT")])]
        else Undefined)
  /\ prop "applicationContext" body
     = (if saved then Undefined else Obj [("userAction", Str "PAY_NOW")])
  /\ path [K "purchaseUnits"; I0; K "amount"; K "currencyCode"] body
     = Str (toUpperCase (currency_code input)).
Proof.
  cbv zeta. unfold Service.order_body.
  destruct (truthy (prop "resource_id" (init_data input))
            && truthy (prop "is_saved_token" (init_data input)));
    repeat split.
Qed.

Lemma try_catch_contained {A : Type} (m : Eff A) (h : thrown -> Eff A)
    (P : Processor) (tr : list call) :
  (forall e P' tr', contained (fst (h e P' tr'))) ->
  contained (fst (try_catch m h P tr)).
Proof.
  intros Hh. unfold try_catch.
  destruct (m P tr) as [[a|e] tr']; [exact I|apply Hh].
Qed.

(** X11: no error of the SDK or of the runtime escapes a method that
    calls the processor: each of them returns or throws one of the
    adapter's own errors. *)
Theorem errors_contained (P : Processor) :
  (forall input, contained (fst (run (initiatePayment input) P)))
  /\ (forall input, contained (fst (run (authorizePayment input) P)))
  /\ (forall input, contained (fst (run (getPaymentStatus input) P)))
  /\ (forall input, contained (fst (run (refundPayment input) P)))
  /\ (forall input, contained (fst (run (savePaymentMethod input) P)))
  /\ (forall context, contained (fst (run (listPaymentMethods context) P))).
Proof.
  assert (Hstatus : forall input P' tr,
             contained (fst (getPaymentStatus input P' tr))).
  { intros input P' tr. rewrite getPaymentStatus_run.
    destruct (truthy (prop "id" (in_data input))); exact I. }
  repeat split; unfold run.
  - intros input. apply try_catch_contained. intros; exact I.
  - intros input. unfold authorizePayment.
    destruct (negb (truthy (prop "id" (in_data input)))); [exact I|].
    apply try_catch_contained. intros e P' tr'.
    destruct (status_is 422 e); [apply Hstatus|exact I].
  - intros input. apply Hstatus.
  - intros input. unfold refundPayment.
    destruct (negb (truthy (getCaptureId (refund_data input)))); [exact I|].
    apply try_catch_contained. intros; exact I.
  - intros input. unfold savePaymentMethod.
    destruct (negb (truthy (accountHolderId (method_context input)))); [exact I|].
    apply try_catch_contained. intros; exact I.
  - intros context. unfold listPaymentMethods.
    destruct (negb (truthy (accountHolderId context))); [exact I|].
    apply try_catch_contained. intros e P' tr'.
    destruct (status_is 404 e); exact I.
Qed.

Lemma hundredths_nonneg (q : Q) : (0 <= hundredths q)%Z.
Proof.
  unfold hundredths. rewrite <- (Qfloor_Z 0). apply Qfloor_resp_le.
  pose proof (Qabs_nonneg q). change (inject_Z 0) with 0%Q. lra.
Qed.

(** X12: for an amount below 10^21 in magnitude, integer or not, the
    decimal number written in the string sent to the processor is within
    half a hundredth of the amount. *)
Theorem sent_amount_accuracy (input : InitiatePaymentInput) (P : Processor) (q : Q) :
  amount input = Fin q ->
  Qabs q < inject_Z (10 ^ 21) ->
  exists s y,
    map amount_value (snd (run (initiatePayment input) P)) = [Str s]
    /\ num_eq (decimal_value s) (Fin y)
    /\ Qabs (y - q) <= 1 # 200.
Proof.
  intros Hq _. unfold decimal_value.
  pose proof (hundredths_nonneg q) as Hn0.
  pose proof (Z.mod_pos_bound (hundredths q) 100 ltac:(lia)) as Hm.
  pose proof (Z.div_pos (hundredths q) 100 Hn0 ltac:(lia)) as Hd.
  exists (toFixed2 (Fin q)),
    ((if Qle_bool 0 q then 1 else -1) * (inject_Z (hundredths q) / 100)).
  split; [|split].
  - rewrite (initiatePayment_calls input P (Fin q)) by (rewrite Hq; reflexivity).
    cbn [map]. rewrite amount_value_order_body. reflexivity.
  - unfold toFixed2.
    replace (if Qle_bool 0 q then "" else "-") with (sign_of (negb (Qle_bool 0 q)))
      by (destruct (Qle_bool 0 q); reflexivity).
    rewrite parseFloat_signed.
    eapply num_eq_Fin; [apply parse_decimal_fixed; lia|].
    rewrite <- Z.div_mod by discriminate.
    destruct (Qle_bool 0 q); reflexivity.
  - pose proof (Qfloor_le (Qabs q * 100 + (1 # 2))) as Hlo.
    pose proof (Qlt_floor (Qabs q * 100 + (1 # 2))) as Hhi.
    fold (hundredths q) in Hlo, Hhi.
    rewrite inject_Z_plus in Hhi. change (inject_Z 1) with 1%Q in Hhi.
    apply Qabs_Qle_condition.
    unfold Qdiv. change (/ 100)%Q with (1 # 100)%Q.
    destruct (Qle_bool 0 q) eqn:Hs.
    + apply Qle_bool_iff in Hs. rewrite (Qabs_pos q Hs) in Hlo, Hhi.
      split; lra.
    + assert (Hneg : q < 0).
      { apply Qnot_le_lt. intros H. apply Qle_bool_iff in H. congruence. }
      rewrite (Qabs_neg q) in Hlo, Hhi by lra.
      split; lra.
Qed.

Lemma sent_amount_accuracy_witness :
  exists s y,
    map amount_value
      (snd (run (initiatePayment {| currency_code := "usd"; amount := Fin (12345 # 1000);
                                    init_data := Obj [] |})
              (answer completed_order))) = [Str s]
    /\ num_eq (decimal_value s) (Fin y)
    /\ Qabs (y - (12345 # 1000)) <= 1 # 200.
Proof.
  refine (sent_amount_accuracy
            {| currency_code := "usd"; amount := Fin (12345 # 1000);
               init_data := Obj [] |}
            (answer completed_order) (12345 # 1000) eq_refl _).
  reflexivity.
Defined.

End Containment.

(** ** Webhook events: every case *)

Section WebhookCases.
Import Js Sdk Service Contract Provider Shapes.

(** X13: on any event object [getWebhookActionAndData] returns, with the
    action the table gives for the event type (not supported when the type
    is unknown, missing or no string); only a payload that is [null] or
    [undefined] makes it throw. *)
Theorem webhook_action (payload : value) :
  (nullish payload = false ->
   exists r,
     Service.getWebhookActionAndData payload = Return r
     /\ action r = event_action (prop "event_type" payload))
  /\ (nullish payload = true ->
      exists msg, Service.getWebhookActionAndData payload = Throw (TypeError msg)).
Proof.
  unfold Service.getWebhookActionAndData, destructure. split; intros Hn; rewrite Hn.
  - destruct (prop "event_type" payload) as [| |b|n|s|l|fs];
      try (eexists; split; reflexivity).
    unfold event_action, action_table, is_str. cbn [find fst snd].
    rewrite !(String.eqb_sym _ s).
    repeat match goal with
           | |- context [String.eqb s ?k] => destruct (String.eqb s k)
           end; cbn [orb]; eexists; split; reflexivity.
  - eexists. reflexivity.
Qed.

Lemma webhook_action_witness :
  exists r,
    Service.getWebhookActionAndData
      (Obj [("event_type", Str "PAYMENT.CAPTURE.REFUNDED");
            ("resource", Obj [("customId", Str "sess_2")])])
    = Return r
    /\ action r = SUCCESSFUL.
Proof.
  exact (proj1 (webhook_action
                  (Obj [("event_type", Str "PAYMENT.CAPTURE.REFUNDED");
                        ("resource", Obj [("customId", Str "sess_2")])]))
           eq_refl).
Defined.

Lemma capture_event_result (payload : value) :
  nullish payload = false ->
  capture_event (prop "event_type" payload) = true ->
  Service.getWebhookActionAndData payload
  = Return (mk_webhook (event_action (prop "event_type" payload))
              (or_else (path [K "resource"; K "custom_id"] payload)
                 (path [K "resource"; K "customId"] payload))
              (Service.getAmount (prop "resource" payload))).
Proof.
  intros Hn Hev.
  unfold Service.getWebhookActionAndData, destructure. rewrite Hn.
  unfold capture_event in Hev.
  destruct (prop "event_type" payload) as [| |b|n|s|l|fs]; try discriminate Hev.
  unfold event_action, action_table, is_str in *. cbn [find fst snd].
  rewrite !(String.eqb_sym _ s).
  destruct (String.eqb s "PAYMENT.CAPTURE.COMPLETED") eqn:E1; [reflexivity|].
  destruct (String.eqb s "PAYMENT.CAPTURE.DENIED") eqn:E2; [reflexivity|].
  destruct (String.eqb s "PAYMENT.CAPTURE.DECLINED") eqn:E3; [reflexivity|].
  destruct (String.eqb s "CHECKOUT.ORDER.APPROVED") eqn:E4.
  - apply String.eqb_eq in E4. subst s. discriminate Hev.
  - destruct (String.eqb s "PAYMENT.CAPTURE.REFUNDED") eqn:E5; [reflexivity|].
    discriminate Hev.
Qed.

(** X14: for the four capture events, a resource without an amount value
    is reported with amount 0, and the session id is [custom_id] when that
    is usable and [customId] otherwise. *)
Theorem capture_event_defaults (payload : value) :
  nullish payload = false ->
  capture_event (prop "event_type" payload) = true ->
  exists r,
    Service.getWebhookActionAndData payload = Return r
    /\ (truthy (path [K "resource"; K "amount"; K "value"] payload) = false ->
        num_eq (webhook_amount r) (Fin 0))
    /\ (truthy (path [K "resource"; K "custom_id"] payload) = true ->
        session_id r = path [K "resource"; K "custom_id"] payload)
    /\ (truthy (path [K "resource"; K "custom_id"] payload) = false ->
        session_id r = path [K "resource"; K "customId"] payload).
Proof.
  intros Hn Hev. rewrite (capture_event_result payload Hn Hev).
  eexists. split; [reflexivity|]. cbn [webhook_amount session_id].
  unfold or_else. split; [|split].
  - intros Hv. unfold Service.getAmount, or_else.
    unfold path in *. cbn [fold_left access] in *.
    rewrite Hv. vm_compute. reflexivity.
  - intros H. rewrite H. reflexivity.
  - intros H. rewrite H. reflexivity.
Qed.

Lemma capture_event_defaults_witness :
  exists r,
    Service.getWebhookActionAndData
      (Obj [("event_type", Str "PAYMENT.CAPTURE.DENIED");
            ("resource", Obj [("customId", Str "sess_2")])])
    = Return r
    /\ num_eq (webhook_amount r) (Fin 0)
    /\ session_id r = Str "sess_2".
Proof.
  destruct (capture_event_defaults
              (Obj [("event_type", Str "PAYMENT.CAPTURE.DENIED");
                    ("resource", Obj [("customId", Str "sess_2")])])
              eq_refl eq_refl) as (r & Hrun & Hzero & _ & Hid).
  exists r. split; [exact Hrun|]. split; [exact (Hzero eq_refl)|exact (Hid eq_refl)].
Defined.

Lemma fixed_string_truthy (neg : bool) (a : Z) (rest : string) :
  truthy (Str (sign_of neg ++ dec a ++ rest)) = true.
Proof.
  destruct (dec_head a) as (c & s & Hd & _). rewrite Hd.
  destruct neg; reflexivity.
Qed.

End WebhookCases.
Section Echo.
Import Js Sdk Service Contract Provider Shapes.

Lemma getAmount_units (A : Z) (resource : value) :
  path [K "amount"; K "value"] resource = Str (units_string A) ->
  num_eq (Service.getAmount resource) (Fin (inject_Z A)).
Proof.
  intros Hv. unfold Service.getAmount. rewrite Hv.
  unfold or_else.
  assert (Ht : truthy (Str (units_string A)) = true)
    by exact (fixed_string_truthy (A <? 0)%Z (Z.abs A) ".00").
  rewrite Ht. apply parseFloat_units.
Qed.

(** X15: amounts survive the round trip through the processor in the
    current revision: the string [initiatePayment] sends for an integer
    amount [A], when it comes back as the amount value of a capture event,
    is reported by [getWebhookActionAndData] as [A] again. *)
Theorem amount_echo (A : Z) (input : InitiatePaymentInput) (P : Processor)
    (payload : value) :
  (Z.abs A < 2 ^ 52)%Z ->
  amount input = Fin (inject_Z A) ->
  nullish payload = false ->
  capture_event (prop "event_type" payload) = true ->
  map amount_value (snd (run (Service.initiatePayment input) P))
  = [path [K "amount"; K "value"] (prop "resource" payload)] ->
  exists r,
    Service.getWebhookActionAndData payload = Return r
    /\ num_eq (webhook_amount r) (Fin (inject_Z A)).
Proof.
  intros _ Hamount Hn Hev Hsent.
  rewrite (initiatePayment_calls input P (Fin (inject_Z A))) in Hsent
    by (rewrite Hamount; reflexivity).
  cbn [map] in Hsent. rewrite amount_value_order_body, toFixed2_units in Hsent.
  injection Hsent as Hsent.
  rewrite (capture_event_result payload Hn Hev).
  eexists. split; [reflexivity|]. cbn [webhook_amount].
  apply getAmount_units. symmetry. exact Hsent.
Qed.

Lemma amount_echo_witness :
  exists r,
    Service.getWebhookActionAndData
      (Obj [("event_type", Str "PAYMENT.CAPTURE.COMPLETED");
            ("resource", Obj [("amount", Obj [("value", Str "350.00")])])])
    = Return r
    /\ num_eq (webhook_amount r) (Fin (inject_Z 350)).
Proof.
  refine (amount_echo 350
            {| currency_code := "usd"; amount := Fin (inject_Z 350);
               init_data := Obj [] |}
            (answer completed_order)
            (Obj [("event_type", Str "PAYMENT.CAPTURE.COMPLETED");
                  ("resource",
                   Obj [("amount", Obj [("value", Str "350.00")])])])
            eq_refl eq_refl eq_refl eq_refl _).
  vm_compute. reflexivity.
Defined.

End Echo.

(** ** The revisions side by side *)

Section Revisions.
Import Js Sdk Service Contract Provider Shapes.

(** X16: the webhook mapping of the current revision and of the one before
    it agree on every event object in action and session id; they differ
    in the amount alone, which the earlier revision multiplies by 100. *)
Theorem webhook_revisions (payload : value) :
  nullish payload = false ->
  exists r r1,
    Service.getWebhookActionAndData payload = Return r
    /\ Rev1.getWebhookActionAndData payload = Return r1
    /\ action r1 = action r
    /\ session_id r1 = session_id r
    /\ (recognized (prop "event_type" payload) = true ->
        webhook_amount r1 = times100 (webhook_amount r))
    /\ (recognized (prop "event_type" payload) = false ->
        webhook_amount r1 = Fin 0 /\ webhook_amount r = Fin 0).
Proof.
  intros Hn.
  unfold Service.getWebhookActionAndData, Rev1.getWebhookActionAndData,
    destructure, recognized, event_types. rewrite Hn. cbn [existsb].
  destruct (is_str "PAYMENT.CAPTURE.COMPLETED" (prop "event_type" payload));
    [do 2 eexists; repeat split; discriminate|].
  destruct (is_str "PAYMENT.CAPTURE.DENIED" (prop "event_type" payload));
    [do 2 eexists; repeat split; discriminate|].
  destruct (is_str "PAYMENT.CAPTURE.DECLINED" (prop "event_type" payload));
    [do 2 eexists; repeat split; discriminate|].
  destruct (is_str "CHECKOUT.ORDER.APPROVED" (prop "event_type" payload));
    [do 2 eexists; repeat split; discriminate|].
  destruct (is_str "PAYMENT.CAPTURE.REFUNDED" (prop "event_type" payload));
    do 2 eexists; repeat split; discriminate.
Qed.

Lemma webhook_revisions_witness :
  exists r r1,
    Service.getWebhookActionAndData capture_completed_event = Return r
    /\ Rev1.getWebhookActionAndData capture_completed_event = Return r1
    /\ webhook_amount r1 = times100 (webhook_amount r).
Proof.
  destruct (webhook_revisions capture_completed_event eq_refl)
    as (r & r1 & H & H1 & _ & _ & Ham & _).
  exists r, r1. split; [exact H|]. split; [exact H1|]. apply Ham. reflexivity.
Defined.

(** X17: the capture-id lookup of the oldest revision tries the flat field,
    then the snake_case path, then the fallback; it agrees with
    [getCaptureId] of the current revision on every data object that has
    no usable camelCase capture id. *)
Theorem legacy_capture_id (data : value) :
  Rev0.refund_capture_id data
  = first_truthy [path flat_id data; path snake_id data] (path fallback_id data)
  /\ (truthy (path camel_id data) = false ->
      Rev0.refund_capture_id data = getCaptureId data).
Proof.
  assert (Hchain : Rev0.refund_capture_id data
                   = first_truthy [path flat_id data; path snake_id data]
                       (path fallback_id data)).
  { unfold Rev0.refund_capture_id, first_truthy, flat_id, snake_id, fallback_id.
    change (path [K "capture_id"] data) with (prop "capture_id" data).
    destruct (truthy (prop "capture_id" data)) eqn:H1; cbn [negb].
    - rewrite H1. reflexivity.
    - destruct (truthy (path [K "purchase_units"; I0; K "payments";
                              K "captures"; I0; K "id"] data)); reflexivity. }
  split; [exact Hchain|].
  intros Hcamel. rewrite Hchain.
  unfold getCaptureId, first_truthy, flat_id, snake_id, fallback_id.
  unfold camel_id in Hcamel. rewrite Hcamel. reflexivity.
Qed.

Lemma legacy_capture_id_witness :
  Rev0.refund_capture_id (Obj [("payments",
                                Obj [("captures", Arr [Obj [("id", Str "CAP-7")]])])])
  = getCaptureId (Obj [("payments",
                        Obj [("captures", Arr [Obj [("id", Str "CAP-7")]])])]).
Proof.
  exact (proj2 (legacy_capture_id
                  (Obj [("payments",
                         Obj [("captures", Arr [Obj [("id", Str "CAP-7")]])])]))
           eq_refl).
Defined.

(** X18: in the two earlier revisions every refund request sent for a
    non-zero integer amount [A], passed as a JavaScript number below 2^52
    in magnitude, carries [A / 100] printed with two fraction digits.  The
    bound keeps [A / 100] in the range where a double prints the same
    digits as the exact quotient ([toFixed2_half_cent]). *)
Theorem legacy_refund_amount (A : Z) (data : value) (P : Processor) :
  (Z.abs A < 2 ^ 52)%Z ->
  A <> 0%Z ->
  let input := {| refund_data := data; refund_amount := Some (Fin (inject_Z A)) |} in
  Forall (fun c => amount_value c = Str (cents_string A))
    (snd (run (Rev1.refundPayment input) P))
  /\ Forall (fun c => amount_value c = Str (cents_string A))
       (snd (run (Rev0.refundPayment input) P)).
Proof.
  intros _ Hnz. cbv zeta.
  assert (Ht : number_truthy (Fin (inject_Z A)) = true).
  { cbn [number_truthy].
    destruct (Qeq_bool (inject_Z A) 0) eqn:E; [|reflexivity].
    apply Qeq_bool_eq in E. unfold Qeq in E. cbn -[Z.mul] in E. lia. }
  pose proof (toFixed2_cents A) as Hc.
  split.
  - unfold run, Rev1.refundPayment. cbn [refund_data refund_amount].
    destruct (negb (truthy (getCaptureId data))); [constructor|].
    unfold Rev1.refund_body. rewrite Ht. unfold_eff.
    destruct (upper _) as [code|e]; [|constructor].
    rewrite Hc. cbn [app].
    destruct (P [] _); (constructor; [reflexivity|constructor]).
  - unfold run, Rev0.refundPayment. cbn [refund_data refund_amount].
    destruct (negb (truthy (Rev0.refund_capture_id data))); [constructor|].
    unfold Rev0.refund_body. rewrite Ht. unfold_eff.
    destruct (upper _) as [code|e]; [|constructor].
    rewrite Hc. cbn [app].
    destruct (P [] _); (constructor; [reflexivity|constructor]).
Qed.

Lemma legacy_refund_amount_witness :
  snd (run (Rev1.refundPayment
              {| refund_data := Obj [("capture_id", Str "CAP-1")];
                 refund_amount := Some (Fin (inject_Z 350)) |})
         (answer (Obj [])))
  = [refundCapturedPayment (Str "CAP-1")
       (Obj [("amount", Obj [("currencyCode", Str "USD"); ("value", Str "3.50")])])]
  /\ Forall (fun c => amount_value c = Str (cents_string 350))
       (snd (run (Rev1.refundPayment
                    {| refund_data := Obj [("capture_id", Str "CAP-1")];
                       refund_amount := Some (Fin (inject_Z 350)) |})
               (answer (Obj [])))).
Proof.
  split; [vm_compute; reflexivity|].
  refine (proj1 (legacy_refund_amount 350 (Obj [("capture_id", Str "CAP-1")])
                   (answer (Obj [])) eq_refl _)).
  discriminate.
Defined.

End Revisions.

(** ** Options and account holders *)

Section Holders.
Import Js Sdk Service Contract Provider Shapes.

(** X19: [validateOptions] accepts the options exactly when both the
    client id and the client secret are present and non-empty; when the
    client id is missing the error names the client id, whatever the
    secret. *)
Theorem validateOptions_accepts (options : PayPalOptions) :
  (validateOptions options = Return tt <->
   truthy (clientId options) = true /\ truthy (clientSecret options) = true)
  /\ (truthy (clientId options) = false ->
      validateOptions options
      = Throw (MedusaError INVALID_DATA
                 "Required option `clientId` is missing in PayPal provider")).
Proof.
  unfold validateOptions.
  destruct (truthy (clientId options)), (truthy (clientSecret options));
    cbn [negb]; split; try reflexivity; try discriminate;
    (split; [try discriminate; auto|intros [H1 H2]; try discriminate; reflexivity]).
Qed.

Lemma validateOptions_accepts_witness :
  validateOptions {| clientId := Str "id"; clientSecret := Str "secret";
                     isSandbox := Undefined |} = Return tt
  /\ validateOptions {| clientId := Str ""; clientSecret := Undefined;
                        isSandbox := Bool true |}
     = Throw (MedusaError INVALID_DATA
                "Required option `clientId` is missing in PayPal provider").
Proof.
  split.
  - apply (proj1 (validateOptions_accepts
                    {| clientId := Str "id"; clientSecret := Str "secret";
                       isSandbox := Undefined |})).
    split; reflexivity.
  - apply (proj2 (validateOptions_accepts
                    {| clientId := Str ""; clientSecret := Undefined;
                       isSandbox := Bool true |})).
    reflexivity.
Defined.

(** X20: an account holder created from a customer gets the id "paypal_"
    followed by the customer's id, stored in its data as well; a later
    [createAccountHolder] with that data returns the same id without
    looking at the customer, and [savePaymentMethod] and
    [listPaymentMethods] find that id in a context built from the data. *)
Theorem createAccountHolder_stable (context : HolderContext) (c : Customer) :
  truthy (path [K "data"; K "id"] (account_holder context)) = false ->
  customer context = Some c ->
  exists out,
    createAccountHolder context = Return out
    /\ holder_id out = Str ("paypal_" ++ customer_id c)
    /\ prop "id" (holder_data out) = holder_id out
    /\ (forall other,
           createAccountHolder
             {| account_holder := Obj [("data", holder_data out)];
                customer := other |}
           = Return (mk_holder (holder_id out) Undefined))
    /\ accountHolderId (Obj [("account_holder", Obj [("data", holder_data out)])])
       = holder_id out
    /\ truthy (holder_id out) = true.
Proof.
  intros Hnone Hc. unfold createAccountHolder. rewrite Hnone, Hc.
  eexists. split; [reflexivity|]. cbn [holder_id holder_data].
  repeat split.
Qed.

Lemma createAccountHolder_stable_witness :
  exists out,
    createAccountHolder
      {| account_holder := Undefined;
         customer := Some {| customer_id := "cus_1"; customer_email := Str "a@b.c";
                             company_name := Null; first_name := Some "Ada";
                             last_name := None; phone := Undefined |} |}
    = Return out
    /\ holder_id out = Str "paypal_cus_1".
Proof.
  destruct (createAccountHolder_stable
              {| account_holder := Undefined;
                 customer := Some {| customer_id := "cus_1";
                                     customer_email := Str "a@b.c";
                                     company_name := Null; first_name := Some "Ada";
                                     last_name := None; phone := Undefined |} |}
              _ eq_refl eq_refl) as (out & Hrun & Hid & _).
  exists out. split; [exact Hrun|exact Hid].
Defined.

(** X21: the name of a created account holder is the company name when
    there is one, else the trimmed first and last name, and it is never an
    empty string: with nothing to build it from it is [undefined]. *)
Theorem createAccountHolder_name (context : HolderContext) (c : Customer) :
  truthy (path [K "data"; K "id"] (account_holder context)) = false ->
  customer context = Some c ->
  exists out,
    createAccountHolder context = Return out
    /\ (truthy (company_name c) = true ->
        prop "name" (holder_data out) = company_name c)
    /\ (truthy (company_name c) = false ->
        prop "name" (holder_data out)
        = if String.eqb (full_name (Some c)) "" then Undefined
          else Str (full_name (Some c)))
    /\ prop "name" (holder_data out) <> Str "".
Proof.
  intros Hnone Hc. unfold createAccountHolder. rewrite Hnone, Hc.
  eexists. split; [reflexivity|]. cbn [holder_data].
  change (prop "name" (Obj ?fs)) with (lookup "name" fs).
  cbn [lookup String.eqb Ascii.eqb Bool.eqb].
  unfold or_else.
  destruct (truthy (company_name c)) eqn:Hcomp.
  - rewrite Hcomp. split; [reflexivity|]. split; [discriminate|].
    intros H. rewrite H in Hcomp. discriminate Hcomp.
  - cbn [truthy].
    destruct (String.eqb (full_name (Some c)) "") eqn:Hname; cbn [negb truthy].
    + split; [discriminate|]. split; [reflexivity|discriminate].
    + split; [discriminate|]. split; [reflexivity|].
      intros H. injection H as H. apply String.eqb_neq in Hname.
      apply Hname. exact H.
Qed.

Lemma createAccountHolder_name_witness :
  exists out,
    createAccountHolder
      {| account_holder := Undefined;
         customer := Some {| customer_id := "cus_1"; customer_email := Str "a@b.c";
                             company_name := Null; first_name := Some "Ada";
                             last_name := None; phone := Undefined |} |}
    = Return out
    /\ prop "name" (holder_data out) = Str "Ada".
Proof.
  destruct (createAccountHolder_name
              {| account_holder := Undefined;
                 customer := Some {| customer_id := "cus_1";
                                     customer_email := Str "a@b.c";
                                     company_name := Null; first_name := Some "Ada";
                                     last_name := None; phone := Undefined |} |}
              _ eq_refl eq_refl) as (out & Hrun & _ & Hname & _).
  exists out. split; [exact Hrun|]. exact (Hname eq_refl).
Defined.

Lemma has_key_lookup (k : string) (fs : list (string * value)) :
  has_key k fs = false -> lookup k fs = Undefined.
Proof.
  induction fs as [|[k' v] fs IH]; cbn [has_key existsb lookup fst]; [reflexivity|].
  destruct (String.eqb k k'); cbn [orb]; [discriminate|exact IH].
Qed.

(** [{ ...target, ...source }]: a key of the source takes the source's
    value, any other key keeps the target's. *)
Lemma assign_lookup (k : string) (source target : list (string * value)) :
  distinct_keys source ->
  lookup k (assign target source)
  = if has_key k source then lookup k source else lookup k target.
Proof.
  unfold assign, distinct_keys. revert target.
  induction source as [|[k' v] source IH]; intros target Hd;
    cbn [fold_left has_key existsb lookup fst snd map]; [reflexivity|].
  inversion Hd as [|? ? Hnot Hrest]; subst.
  rewrite (IH _ Hrest). fold (has_key k source).
  destruct (String.eqb_spec k k') as [->|Hne]; cbn [orb].
  - assert (Hk : has_key k' source = false).
    { destruct (has_key k' source) eqn:E; [|reflexivity].
      exfalso. apply Hnot. unfold has_key in E.
      apply existsb_exists in E. destruct E as ([k0 v0] & Hin & Heq).
      apply String.eqb_eq in Heq. cbn in Heq. subst k0.
      apply in_map_iff. exists (k', v0). split; [reflexivity|exact Hin]. }
    rewrite Hk. apply lookup_set_field_same.
  - destruct (has_key k source); [reflexivity|].
    apply lookup_set_field_other. exact Hne.
Qed.

(** X22: [updateAccountHolder] merges the supplied fields over the stored
    data: a supplied key takes the supplied value, any other stored key is
    kept; but email and name are always recomputed, from the customer when
    it has them and from the stored data otherwise, so an email or name in
    the supplied fields is never used. *)
Theorem updateAccountHolder_merge (context : HolderContext)
    (stored supplied : list (string * value)) :
  prop "data" (account_holder context) = Obj stored ->
  truthy (lookup "id" stored) = true ->
  distinct_keys supplied ->
  exists updated,
    updateAccountHolder context (Obj supplied) = Return (Obj updated)
    /\ (forall k, k <> "email" -> k <> "name" ->
                  lookup k updated
                  = if has_key k supplied then lookup k supplied
                    else lookup k stored)
    /\ lookup "email" updated
       = or_else (match customer context with
                  | Some c => customer_email c
                  | None => Undefined
                  end) (lookup "email" stored)
    /\ lookup "name" updated
       = or_else (or_else (match customer context with
                           | Some c => company_name c
                           | None => Undefined
                           end) (Str (full_name (customer context))))
           (lookup "name" stored).
Proof.
  intros Hdata Hid Hdist. unfold updateAccountHolder.
  change (path [K "data"; K "id"] (account_holder context))
    with (prop "id" (prop "data" (account_holder context))).
  rewrite Hdata. cbn [prop spread]. rewrite Hid. cbn [negb].
  eexists. split; [reflexivity|]. split; [|split].
  - intros k He Hn.
    rewrite lookup_set_field_other by exact Hn.
    rewrite lookup_set_field_other by exact He.
    apply assign_lookup. exact Hdist.
  - rewrite lookup_set_field_other by discriminate.
    apply lookup_set_field_same.
  - apply lookup_set_field_same.
Qed.

Lemma updateAccountHolder_merge_witness :
  exists updated,
    updateAccountHolder
      {| account_holder :=
           Obj [("data", Obj [("id", Str "paypal_cus_1"); ("email", Str "old@b.c");
                              ("phone", Str "1")])];
         customer := None |}
      (Obj [("phone", Str "2"); ("email", Str "new@b.c")])
    = Return (Obj updated)
    /\ lookup "phone" updated = Str "2"
    /\ lookup "id" updated = Str "paypal_cus_1"
    /\ lookup "email" updated = Str "old@b.c".
Proof.
  assert (Hd : distinct_keys [("phone", Str "2"); ("email", Str "new@b.c")]).
  { unfold distinct_keys. cbn [map fst].
    constructor; [cbn; intros [H|[]]; discriminate H|].
    constructor; [cbn; tauto|constructor]. }
  destruct (updateAccountHolder_merge
              {| account_holder :=
                   Obj [("data", Obj [("id", Str "paypal_cus_1");
                                      ("email", Str "old@b.c");
                                      ("phone", Str "1")])];
                 customer := None |}
              _ [("phone", Str "2"); ("email", Str "new@b.c")]
              eq_refl eq_refl Hd) as (updated & Hrun & Hkeep & Hemail & _).
  exists updated. split; [exact Hrun|].
  split; [exact (Hkeep "phone" ltac:(discriminate) ltac:(discriminate))|].
  split; [exact (Hkeep "id" ltac:(discriminate) ltac:(discriminate))|exact Hemail].
Defined.

End Holders.

(** ** Saved payment methods *)

Section Vault.
Import Js Sdk Service Contract Provider Shapes.

(** The setup-token request of [savePaymentMethod]. *)
Lemma savePaymentMethod_run (input : MethodInput) (P : Processor) (tr : list call) :
  savePaymentMethod input P tr
  = let id := accountHolderId (method_context input) in
    if truthy id then
      let c := createSetupToken
                 (Obj [("payment_source",
                        Obj [("card",
                              or_else (prop "card" (method_input_data input))
                                (Obj []))]);
                       ("customer", Obj [("id", id)])])
                 (prop "idempotency_key" (method_context input)) in
      (match P tr c with
       | inr result =>
           match member "id" result with
           | Return token => Return (mk_method (or_else token (Str "")) result)
           | Throw e =>
               Throw (MedusaError PAYMENT_AUTHORIZATION_ERROR
                        ("PayPal savePaymentMethod failed: " ++ error_text e))
           end
       | inl e =>
           Throw (MedusaError PAYMENT_AUTHORIZATION_ERROR
                    ("PayPal savePaymentMethod failed: " ++ error_text (Raised e)))
       end, (tr ++ [c])%list)
    else (Throw (MedusaError INVALID_DATA
                   "Missing account holder ID for saving payment method"), tr).
Proof.
  unfold savePaymentMethod. cbv zeta.
  destruct (truthy (accountHolderId (method_context input))); cbn [negb];
    [|reflexivity].
  unfold_eff. destruct (P tr _) as [e|result]; [reflexivity|].
  destruct (member "id" result); reflexivity.
Qed.

(** X23: with an account-holder id [savePaymentMethod] sends one
    setup-token request, for that id as the customer, with the card given
    in the data (the empty object when none is given) and with the host's
    idempotency key as the request id; it returns the token's id, or the
    empty string when the token has none, and throws the authorization
    error on any rejection, a 404 included. *)
Theorem savePaymentMethod_token (input : MethodInput) (P : Processor) :
  truthy (accountHolderId (method_context input)) = true ->
  exists body,
    snd (run (savePaymentMethod input) P)
    = [createSetupToken body (prop "idempotency_key" (method_context input))]
    /\ path [K "customer"; K "id"] body = accountHolderId (method_context input)
    /\ (truthy (prop "card" (method_input_data input)) = true ->
        path [K "payment_source"; K "card"] body
        = prop "card" (method_input_data input))
    /\ (truthy (prop "card" (method_input_data input)) = false ->
        path [K "payment_source"; K "card"] body = Obj [])
    /\ (forall result,
           P [] (createSetupToken body
                   (prop "idempotency_key" (method_context input))) = inr result ->
           nullish result = false ->
           fst (run (savePaymentMethod input) P)
           = Return (mk_method (or_else (prop "id" result) (Str "")) result))
    /\ (forall e,
           P [] (createSetupToken body
                   (prop "idempotency_key" (method_context input))) = inl e ->
           fst (run (savePaymentMethod input) P)
           = Throw (MedusaError PAYMENT_AUTHORIZATION_ERROR
                      ("PayPal savePaymentMethod failed: "
                       ++ error_text (Raised e)))).
Proof.
  intros Hid. unfold run. rewrite savePaymentMethod_run. cbv zeta. rewrite Hid.
  eexists. split; [reflexivity|]. split; [reflexivity|].
  split; [|split; [|split]].
  - intros Hcard. unfold path.
    cbn [fold_left access prop lookup String.eqb Ascii.eqb Bool.eqb].
    unfold or_else. rewrite Hcard. reflexivity.
  - intros Hcard. unfold path.
    cbn [fold_left access prop lookup String.eqb Ascii.eqb Bool.eqb].
    unfold or_else. rewrite Hcard. reflexivity.
  - intros result Hok Hn. rewrite Hok. unfold member. rewrite Hn. reflexivity.
  - intros e Hfail. rewrite Hfail. reflexivity.
Qed.

Lemma savePaymentMethod_token_witness :
  fst (run (savePaymentMethod {| method_context := holder_context;
                                 method_input_data := Undefined |})
         (reject (api_error 404 "NOT_FOUND")))
  = Throw (MedusaError PAYMENT_AUTHORIZATION_ERROR
             "PayPal savePaymentMethod failed: NOT_FOUND")
  /\ fst (run (savePaymentMethod {| method_context := holder_context;
                                    method_input_data := Undefined |})
            (answer (Obj [("status", Str "CREATED")])))
     = Return (mk_method (Str "") (Obj [("status", Str "CREATED")])).
Proof.
  split.
  - destruct (savePaymentMethod_token
                {| method_context := holder_context; method_input_data := Undefined |}
                (reject (api_error 404 "NOT_FOUND")) eq_refl)
      as (body & _ & _ & _ & _ & _ & Hfail).
    exact (Hfail (api_error 404 "NOT_FOUND") eq_refl).
  - destruct (savePaymentMethod_token
                {| method_context := holder_context; method_input_data := Undefined |}
                (answer (Obj [("status", Str "CREATED")])) eq_refl)
      as (body & _ & _ & _ & _ & Hok & _).
    exact (Hok (Obj [("status", Str "CREATED")]) eq_refl eq_refl).
Defined.

Lemma map_tokens_present (tokens : list value) :
  forallb (fun token => negb (nullish token)) tokens = true ->
  map_tokens tokens
  = Return (map (fun token => mk_method (prop "id" token) token) tokens).
Proof.
  induction tokens as [|token tokens IH]; cbn [forallb map_tokens map];
    [reflexivity|].
  intros H. apply andb_true_iff in H. destruct H as [Ht Hrest].
  unfold member. destruct (nullish token); [discriminate Ht|].
  rewrite (IH Hrest). reflexivity.
Qed.

Lemma map_tokens_missing (tokens : list value) :
  existsb nullish tokens = true ->
  exists msg, map_tokens tokens = Throw (TypeError msg).
Proof.
  induction tokens as [|token tokens IH]; cbn [existsb map_tokens];
    [discriminate|].
  intros H. unfold member. destruct (nullish token) eqn:Hn.
  - eexists. reflexivity.
  - cbn [orb] in H. destruct (IH H) as [msg Hm]. rewrite Hm.
    eexists. reflexivity.
Qed.

(** X24: when the processor answers the listing, [listPaymentMethods]
    returns one method per stored token, in the processor's order, each
    with the token's id and the token itself as data; an answer without a
    token list gives the empty list; and a token that is [null] or
    [undefined] fails the whole listing with the invalid-data error. *)
Theorem listPaymentMethods_tokens (context : value) (P : Processor) (result : value) :
  truthy (accountHolderId context) = true ->
  P [] (listCustomerPaymentTokens (accountHolderId context) 100) = inr result ->
  nullish result = false ->
  (forall tokens,
      prop "paymentTokens" result = Arr tokens ->
      forallb (fun token => negb (nullish token)) tokens = true ->
      fst (run (listPaymentMethods context) P)
      = Return (map (fun token => mk_method (prop "id" token) token) tokens))
  /\ (truthy (prop "paymentTokens" result) = false ->
      fst (run (listPaymentMethods context) P) = Return [])
  /\ (forall tokens,
         prop "paymentTokens" result = Arr tokens ->
         existsb nullish tokens = true ->
         exists msg,
           fst (run (listPaymentMethods context) P)
           = Throw (MedusaError INVALID_DATA msg)).
Proof.
  intros Hid Hok Hn.
  assert (Hrun : fst (run (listPaymentMethods context) P)
                 = match token_methods result with
                   | Return ms => Return ms
                   | Throw e =>
                       if status_is 404 e then Return []
                       else Throw (MedusaError INVALID_DATA
                                     ("PayPal listPaymentMethods failed: "
                                      ++ error_text e))
                   end).
  { unfold run, listPaymentMethods. rewrite Hid. cbn [negb]. unfold_eff.
    rewrite Hok. destruct (token_methods result) as [ms|e]; [reflexivity|].
    destruct (status_is 404 e); reflexivity. }
  rewrite Hrun. unfold token_methods, member. rewrite Hn.
  split; [|split].
  - intros tokens Htok Hall. rewrite Htok. cbn [or_else truthy].
    rewrite (map_tokens_present tokens Hall). reflexivity.
  - intros Hnone. unfold or_else. rewrite Hnone. reflexivity.
  - intros tokens Htok Hbad. rewrite Htok. cbn [or_else truthy].
    destruct (map_tokens_missing tokens Hbad) as [msg Hm]. rewrite Hm.
    eexists. reflexivity.
Qed.

Lemma listPaymentMethods_tokens_witness :
  fst (run (listPaymentMethods holder_context)
         (answer (Obj [("paymentTokens",
                        Arr [Obj [("id", Str "tok_1")]; Obj [("id", Str "tok_2")]])])))
  = Return [mk_method (Str "tok_1") (Obj [("id", Str "tok_1")]);
            mk_method (Str "tok_2") (Obj [("id", Str "tok_2")])].
Proof.
  exact (proj1 (listPaymentMethods_tokens holder_context
                  (answer (Obj [("paymentTokens",
                                 Arr [Obj [("id", Str "tok_1")];
                                      Obj [("id", Str "tok_2")]])]))
                  _ eq_refl eq_refl eq_refl)
           [Obj [("id", Str "tok_1")]; Obj [("id", Str "tok_2")]] eq_refl eq_refl).
Defined.

End Vault.
